(** * The 2026 salary-range prediction engine of [Python/main.py]

    A shallow embedding of the multi-factor ensemble engine: the lookup
    tables, the role/level normalizer, the heuristic text extractor, the
    five adjustment factors and the weighted blender of [predict_2026].

    Conventions of the embedding.
    - Python [float] values are read as exact rationals ([Q]); equalities
      between them are stated up to [Qeq] ([==]).  Rounding of binary64 is
      not part of the model.
    - Python [str] is [string]; [lower], [upper], [strip] and the regex class
      [\w] are modelled on ASCII text (codes above 127 are left unchanged and
      are neither whitespace nor word characters).
    - A [dict] is an association list in insertion order, because the source
      iterates [.items()] and takes the first hit.  All the tables have
      pairwise distinct keys, so the first binding is the only one.
    - Subscripting [d[k]] can raise [KeyError]; it lives in the error monad
      [result], so that totality of the engine is a theorem and not an
      artefact of the types. *)

From Stdlib Require Import String Ascii List Bool ZArith NArith QArith Qminmax.
From Stdlib Require Import Qpower Qround Lqa Lia Sorted Permutation.
From Stdlib Require Import Decimal DecimalString DecimalPos DecimalN ZifyNat.
From ExtLib Require Import Structures.Monad Structures.MonadExc.
From ExtLib Require Import Data.Monads.EitherMonad.
Import ListNotations MonadNotation.

Local Open Scope string_scope.
Local Open Scope Q_scope.
Local Open Scope monad_scope.

(** ** Python string primitives used by the engine *)

Module PyStr.

Definition code (c : ascii) : N := N_of_ascii c.

Definition in_range (lo hi : N) (c : ascii) : bool :=
  ((lo <=? code c) && (code c <=? hi))%N.

(** [str.isspace] on the ASCII range: TAB..CR, FS..US and the blank. *)
Definition is_space (c : ascii) : bool :=
  in_range 9 13 c || in_range 28 31 c || (code c =? 32)%N.

Definition is_upper (c : ascii) : bool := in_range 65 90 c.
Definition is_lower (c : ascii) : bool := in_range 97 122 c.
Definition is_digit (c : ascii) : bool := in_range 48 57 c.

(** The regex class [\w]: letters, digits and the underscore. *)
Definition is_word (c : ascii) : bool :=
  is_upper c || is_lower c || is_digit c || (code c =? 95)%N.

Definition lower_char (c : ascii) : ascii :=
  if is_upper c then ascii_of_N (code c + 32) else c.

Definition upper_char (c : ascii) : ascii :=
  if is_lower c then ascii_of_N (code c - 32) else c.

Fixpoint map_chars (f : ascii -> ascii) (s : string) : string :=
  match s with
  | EmptyString => EmptyString
  | String c s' => String (f c) (map_chars f s')
  end.

(** [s.lower()] and [s.upper()]. *)
Definition lower : string -> string := map_chars lower_char.
Definition upper : string -> string := map_chars upper_char.

(** [s.replace(old, new)] for one-character [old] and [new]. *)
Definition replace (old new : ascii) : string -> string :=
  map_chars (fun c => if Ascii.eqb c old then new else c).

Fixpoint lstrip (s : string) : string :=
  match s with
  | String c s' => if is_space c then lstrip s' else s
  | EmptyString => EmptyString
  end.

Fixpoint rstrip (s : string) : string :=
  match s with
  | EmptyString => EmptyString
  | String c s' =>
      match rstrip s' with
      | EmptyString => if is_space c then EmptyString else String c EmptyString
      | r => String c r
      end
  end.

(** [s.strip()]. *)
Definition strip (s : string) : string := rstrip (lstrip s).

(** [k in t] on strings: [k] occurs in [t] as a contiguous substring. *)
Fixpoint contains (k t : string) : bool :=
  String.prefix k t ||
  match t with
  | EmptyString => false
  | String _ t' => contains k t'
  end.

(** Python truthiness of a string. *)
Definition nonempty (s : string) : bool :=
  match s with EmptyString => false | _ => true end.

(** *** [re.search(rf"\b{k}\b", t)] for a literal [k]

    [\b] holds between two neighbouring positions when exactly one side
    is a word character; outside the text counts as a non-word. *)

Definition word_opt (c : option ascii) : bool :=
  match c with Some c => is_word c | None => false end.

Definition boundary (before after : option ascii) : bool :=
  xorb (word_opt before) (word_opt after).

Definition head (s : string) : option ascii :=
  match s with String c _ => Some c | EmptyString => None end.

(** After reading the literal [k] at the front of [t]: the last character
    read (or [prev] when [k] is empty) and what is left of [t]. *)
Fixpoint read_literal (prev : option ascii) (k t : string)
  : option (option ascii * string) :=
  match k, t with
  | EmptyString, _ => Some (prev, t)
  | String a k', String b t' =>
      if Ascii.eqb a b then read_literal (Some b) k' t' else None
  | String _ _, EmptyString => None
  end.

Definition word_match_here (prev : option ascii) (k t : string) : bool :=
  boundary prev (head t) &&
  match read_literal prev k t with
  | Some (last, rest) => boundary last (head rest)
  | None => false
  end.

Fixpoint word_search_from (prev : option ascii) (k t : string) : bool :=
  word_match_here prev k t ||
  match t with
  | EmptyString => false
  | String c t' => word_search_from (Some c) k t'
  end.

Definition word_search (k t : string) : bool := word_search_from None k t.

(** The characters of a pattern that the regex engine reads literally
    outside a character class: everything but the metacharacters. *)
Definition is_meta (c : ascii) : bool :=
  existsb (Ascii.eqb c)
    (list_ascii_of_string ".^$*+?{}[]\|()").

Fixpoint literal (k : string) : bool :=
  match k with
  | EmptyString => true
  | String c k' => negb (is_meta c) && literal k'
  end.

(** *** [sorted(set(l))] on a list of strings *)

Definition set (l : list string) : list string := nodup string_dec l.

Fixpoint insert (x : string) (l : list string) : list string :=
  match l with
  | [] => [x]
  | y :: l' => if String.leb x y then x :: l else y :: insert x l'
  end.

Definition sorted (l : list string) : list string :=
  fold_right insert [] l.

End PyStr.

(** ** Dictionaries and the error monad *)

Inductive PyError : Type :=
| KeyError (key : string).

Definition result : Type -> Type := sum PyError.

Module PyDict.

Definition dict (V : Type) : Type := list (string * V).

Section Ops.
Context {V : Type}.

Fixpoint lookup (d : dict V) (k : string) : option V :=
  match d with
  | [] => None
  | (k', v) :: d' => if String.eqb k k' then Some v else lookup d' k
  end.

(** [k in d] *)
Definition mem (k : string) (d : dict V) : bool :=
  match lookup d k with Some _ => true | None => false end.

(** [d.get(k, default)] *)
Definition get (d : dict V) (k : string) (default : V) : V :=
  match lookup d k with Some v => v | None => default end.

(** [d[k]] *)
Definition getitem (d : dict V) (k : string) : result V :=
  match lookup d k with Some v => ret v | None => raise (KeyError k) end.

(** [d.keys()] *)
Definition keys (d : dict V) : list string := map fst d.

(** [d.values()] *)
Definition values (d : dict V) : list V := map snd d.

(** The first pair of [d.items()] whose key passes [test]: the loop
    [for k, v in d.items(): if test(k): ...; break]. *)
Definition first_hit (test : string -> bool) (d : dict V) : option V :=
  option_map snd (find (fun kv => test (fst kv)) d).

(** Truthiness of a dictionary. *)
Definition truthy (d : dict V) : bool :=
  match d with [] => false | _ => true end.
End Ops.

End PyDict.

Import PyDict.

(** ** Configuration tables *)

(** [BASELINES_2024]: role key, then level, to the (low, high) pair in USD. *)
Definition BASELINES_2024 : dict (dict (Z * Z)) :=
  [ ("cybersecurity_engineer",
      [ ("entry", (90000, 120000)); ("mid", (120000, 160000));
        ("senior", (160000, 210000)) ]);
    ("cloud_security_engineer",
      [ ("entry", (105000, 135000)); ("mid", (135000, 175000));
        ("senior", (175000, 230000)) ]);
    ("devsecops_engineer",
      [ ("entry", (100000, 130000)); ("mid", (130000, 170000));
        ("senior", (170000, 225000)) ]);
    ("appsec_engineer",
      [ ("entry", (100000, 135000)); ("mid", (135000, 180000));
        ("senior", (180000, 240000)) ]);
    ("soc_analyst",
      [ ("entry", (70000, 95000)); ("mid", (95000, 125000));
        ("senior", (125000, 160000)) ]);
    ("incident_response_dfir",
      [ ("entry", (95000, 125000)); ("mid", (125000, 165000));
        ("senior", (165000, 220000)) ]);
    ("threat_hunter",
      [ ("entry", (100000, 130000)); ("mid", (130000, 175000));
        ("senior", (175000, 230000)) ]);
    ("penetration_tester",
      [ ("entry", (85000, 115000)); ("mid", (115000, 155000));
        ("senior", (155000, 210000)) ]);
    ("iam_engineer",
      [ ("entry", (90000, 120000)); ("mid", (120000, 160000));
        ("senior", (160000, 210000)) ]);
    ("security_architect",
      [ ("entry", (135000, 175000)); ("mid", (175000, 220000));
        ("senior", (220000, 280000)) ]);
    ("grc_analyst",
      [ ("entry", (80000, 105000)); ("mid", (105000, 140000));
        ("senior", (140000, 185000)) ]) ]%Z.

Definition CAGR_BY_ROLE : dict Q :=
  [ ("default", 0.05);
    ("cloud_security_engineer", 0.07);
    ("devsecops_engineer", 0.07);
    ("appsec_engineer", 0.06);
    ("security_architect", 0.06) ].

Definition INFLATION_2024_TO_2026 : Q := 1.07.

Definition GEO_MULTIPLIER : dict Q :=
  [ ("CA", 1.18); ("NY", 1.15); ("WA", 1.12); ("MA", 1.10); ("DC", 1.12);
    ("VA", 1.07); ("TX", 1.03); ("FL", 1.00); ("IL", 1.02); ("CO", 1.05);
    ("GA", 0.98); ("NC", 0.98); ("AZ", 0.97); ("OH", 0.95); ("PA", 0.97);
    ("REMOTE", 1.00); ("DEFAULT", 1.00) ].

Definition SKILL_PREMIUM : dict Q :=
  [ ("aws_security", 0.05); ("azure_security", 0.05); ("gcp_security", 0.05);
    ("kubernetes", 0.04); ("terraform", 0.03); ("containers", 0.03);
    ("cnapp", 0.04); ("cspm", 0.03);
    ("zero_trust", 0.04); ("iam", 0.03); ("okta", 0.02); ("entra_id", 0.02);
    ("sso_saml_oidc", 0.02); ("siem", 0.03); ("soar", 0.03); ("edr", 0.02);
    ("dfir", 0.05); ("incident_response", 0.04); ("threat_hunting", 0.04);
    ("malware_analysis", 0.04); ("reverse_engineering", 0.04);
    ("secure_sdlc", 0.03); ("sast_dast", 0.03); ("threat_modeling", 0.03);
    ("oscp", 0.06); ("gcih", 0.05); ("gcfa", 0.05); ("gpen", 0.05);
    ("cissp", 0.05); ("ccsp", 0.05); ("security_plus", 0.02) ].

Definition ROLE_ALIASES : dict string :=
  [ ("security engineer", "cybersecurity_engineer");
    ("cybersecurity engineer", "cybersecurity_engineer");
    ("cyber security engineer", "cybersecurity_engineer");
    ("cloud security engineer", "cloud_security_engineer");
    ("devsecops engineer", "devsecops_engineer");
    ("application security engineer", "appsec_engineer");
    ("appsec engineer", "appsec_engineer");
    ("soc analyst", "soc_analyst");
    ("incident response", "incident_response_dfir");
    ("dfir", "incident_response_dfir");
    ("threat hunter", "threat_hunter");
    ("penetration tester", "penetration_tester");
    ("pen tester", "penetration_tester");
    ("red team", "penetration_tester");
    ("iam engineer", "iam_engineer");
    ("security architect", "security_architect");
    ("grc analyst", "grc_analyst") ].

Definition LEVEL_ALIASES : dict string :=
  [ ("junior", "entry"); ("entry", "entry"); ("entry-level", "entry");
    ("mid", "mid"); ("mid-level", "mid"); ("intermediate", "mid");
    ("senior", "senior"); ("lead", "senior"); ("staff", "senior");
    ("principal", "senior") ].

Definition DEFAULT_WEIGHTS : dict Q :=
  [ ("cagr", 0.20); ("inflation", 0.20); ("skills", 0.20); ("geo", 0.20);
    ("regression", 0.20) ].

(** ** Input and output records *)

Record PredictionInput : Type := {
  role : string;
  level : string;
  years_experience : Q;
  state : string;
  skills : list string;
  job_description : option string
}.

Record PredictionBreakdown : Type := {
  baseline_low : Q;
  baseline_high : Q;
  cagr_low : Q;
  cagr_high : Q;
  inflation_low : Q;
  inflation_high : Q;
  skills_multiplier : Q;
  geo_multiplier : Q;
  regression_adjustment_factor : Q;
  final_low : Q;
  final_mid : Q;
  final_high : Q
}.

(** ** Model 1: heuristic extraction from free text *)

(** The dictionary returned by [extract_from_text]. *)
Record Extraction : Type := {
  ext_role_key : option string;
  ext_level : option string;
  ext_skills : list string
}.

Definition CERT_STRINGS : list string :=
  [ "oscp"; "cissp"; "ccsp"; "gcih"; "gcfa"; "gpen"; "security+";
    "security plus" ].

Definition extract_from_text (text : string) : Extraction :=
  let t := PyStr.lower text in
  let role_key := first_hit (fun k => PyStr.contains k t) ROLE_ALIASES in
  let level := first_hit (fun k => PyStr.word_search k t) LEVEL_ALIASES in
  let detected_skills :=
    filter (fun sk =>
              let token := PyStr.replace "_" " " sk in
              PyStr.contains token t || PyStr.contains sk t)
           (keys SKILL_PREMIUM) in
  let detected_certs :=
    map (fun cert =>
           if PyStr.contains "security" cert then "security_plus" else cert)
        (filter (fun cert => PyStr.contains cert t) CERT_STRINGS) in
  {| ext_role_key := role_key;
     ext_level := level;
     ext_skills := PyStr.sorted (PyStr.set (detected_skills ++ detected_certs)) |}.

(** ** Model 2: compound growth *)

Definition apply_cagr (low high : Q) (role_key : string) (years : Z)
  : result (Q * Q) :=
  default <- getitem CAGR_BY_ROLE "default" ;;
  let cagr := get CAGR_BY_ROLE role_key default in
  let factor := (1.0 + cagr) ^ years in
  ret (low * factor, high * factor).

(** ** Model 3: inflation *)

Definition apply_inflation (low high : Q) : Q * Q :=
  (low * INFLATION_2024_TO_2026, high * INFLATION_2024_TO_2026).

(** ** Model 4: skills premium *)

Definition compute_skills_multiplier (skills : list string) : Q :=
  let total :=
    fold_left (fun total s => total + get SKILL_PREMIUM s 0.0) skills 0.0 in
  let total := Qmin total 0.25 in
  1.0 + (0.85 * total).

(** ** Model 5: geography *)

Definition compute_geo_multiplier (state : string) : result Q :=
  let key := PyStr.upper (PyStr.strip state) in
  default <- getitem GEO_MULTIPLIER "DEFAULT" ;;
  ret (get GEO_MULTIPLIER key default).

(** ** Model 6: experience regression surrogate *)

(** [np.clip(x, lo, hi)]: [minimum(maximum(x, lo), hi)]. *)
Definition clip (x lo hi : Q) : Q := Qmin (Qmax x lo) hi.

Definition LEVEL_TARGET : dict Q :=
  [ ("entry", 1.0); ("mid", 4.0); ("senior", 8.0) ].

Definition EXPERIENCE_SENSITIVE : list string :=
  [ "security_architect"; "cloud_security_engineer"; "devsecops_engineer" ].

Definition regression_adjustment (role_key level : string) (years_exp : Q)
  : Q :=
  let target := get LEVEL_TARGET level 4.0 in
  let delta := years_exp - target in
  let leverage :=
    if existsb (String.eqb role_key) EXPERIENCE_SENSITIVE
    then 0.010 else 0.008 in
  1.0 + clip (delta * leverage) (-0.05) 0.08.

(** ** Input normalizer *)

Definition normalize_role (role : string) : result string :=
  let r := PyStr.lower (PyStr.strip role) in
  if mem r ROLE_ALIASES then getitem ROLE_ALIASES r
  else
    match first_hit (fun k => PyStr.contains k r) ROLE_ALIASES with
    | Some v => ret v
    | None =>
        if mem (PyStr.replace " " "_" r) BASELINES_2024
        then ret (PyStr.replace " " "_" r)
        else ret "cybersecurity_engineer"
    end.

Definition normalize_level (level : string) : result string :=
  let l := PyStr.lower (PyStr.strip level) in
  if mem l LEVEL_ALIASES then getitem LEVEL_ALIASES l
  else
    match first_hit (fun k => PyStr.contains k l) LEVEL_ALIASES with
    | Some v => ret v
    | None => ret "mid"
    end.

(** ** The ensemble *)

(** [x or y] where [x] is [None] or a string. *)
Definition or_else (x : option string) (y : string) : string :=
  match x with
  | Some s => if PyStr.nonempty s then s else y
  | None => y
  end.

(** Truthiness of [inp.job_description]. *)
Definition described (d : option string) : option string :=
  match d with
  | Some text => if PyStr.nonempty text then Some text else None
  | None => None
  end.

(** Lines 312-320 of [predict_2026]: the caller's role, level and skills,
    enriched from the job description when there is one. *)
Definition enrich (inp : PredictionInput)
  : result (string * string * list string) :=
  role_key <- normalize_role (role inp) ;;
  level <- normalize_level (level inp) ;;
  let skills := skills inp in
  match described (job_description inp) with
  | Some text =>
      let ext := extract_from_text text in
      ret (or_else (ext_role_key ext) role_key,
           or_else (ext_level ext) level,
           PyStr.sorted (PyStr.set (skills ++ ext_skills ext)))
  | None => ret (role_key, level, skills)
  end.

(** Lines 322-328: the two membership guards and the baseline lookup. *)
Definition baseline_for (role_key level : string)
  : result (string * string * (Z * Z)) :=
  let role_key :=
    if mem role_key BASELINES_2024 then role_key
    else "cybersecurity_engineer" in
  by_level <- getitem BASELINES_2024 role_key ;;
  let level := if mem level by_level then level else "mid" in
  by_level <- getitem BASELINES_2024 role_key ;;
  base <- getitem by_level level ;;
  ret (role_key, level, base).

(** [lerp(x, y, w)] as the blend writes it: [(1 - w) * x + w * y]. *)
Definition lerp (x y w : Q) : Q := (1 - w) * x + w * y.

(** Lines 330-389: factors, candidates A..E and the sequential blend. *)
Definition blend (role_key level : string) (base : Z * Z)
    (skills : list string) (state : string) (years_experience : Q)
    (weights : dict Q) : result PredictionBreakdown :=
  let '(base_low, base_high) := base in
  '(cagr_low, cagr_high) <-
    apply_cagr (inject_Z base_low) (inject_Z base_high) role_key 2 ;;
  let '(infl_low, infl_high) := apply_inflation cagr_low cagr_high in
  let s_mult := compute_skills_multiplier skills in
  g_mult <- compute_geo_multiplier state ;;
  let r_mult := regression_adjustment role_key level years_experience in
  let '(a_low, a_high) := (infl_low, infl_high) in
  let '(b_low, b_high) := (infl_low * s_mult, infl_high * s_mult) in
  let '(c_low, c_high) := (infl_low * g_mult, infl_high * g_mult) in
  let '(d_low, d_high) :=
    (infl_low * s_mult * g_mult, infl_high * s_mult * g_mult) in
  let '(e_low, e_high) := (d_low * r_mult, d_high * r_mult) in
  w_sk <- getitem weights "skills" ;;
  w_geo <- getitem weights "geo" ;;
  w_reg <- getitem weights "regression" ;;
  let low := (1 - w_sk) * a_low + w_sk * b_low in
  let high := (1 - w_sk) * a_high + w_sk * b_high in
  let low := (1 - w_geo) * low + w_geo * d_low in
  let high := (1 - w_geo) * high + w_geo * d_high in
  let low := (1 - w_reg) * low + w_reg * e_low in
  let high := (1 - w_reg) * high + w_reg * e_high in
  let mid := (low + high) / 2.0 in
  ret {| baseline_low := inject_Z base_low;
         baseline_high := inject_Z base_high;
         cagr_low := cagr_low;
         cagr_high := cagr_high;
         inflation_low := infl_low;
         inflation_high := infl_high;
         skills_multiplier := s_mult;
         geo_multiplier := g_mult;
         regression_adjustment_factor := r_mult;
         final_low := low;
         final_mid := mid;
         final_high := high |}.

(** [weights or DEFAULT_WEIGHTS.copy()] *)
Definition effective_weights (weights : option (dict Q)) : dict Q :=
  match weights with
  | Some w => if truthy w then w else DEFAULT_WEIGHTS
  | None => DEFAULT_WEIGHTS
  end.

Definition predict_2026 (inp : PredictionInput) (weights : option (dict Q))
  : result PredictionBreakdown :=
  let weights := effective_weights weights in
  '(role_key, level, skills) <- enrich inp ;;
  '(role_key, level, base) <- baseline_for role_key level ;;
  blend role_key level base skills (state inp) (years_experience inp) weights.

(** The three inputs of the demo in [main.py]. *)
Definition demo_inputs : list PredictionInput :=
  [ {| role := "Cybersecurity Engineer"; level := "Mid";
       years_experience := 4; state := "TX";
       skills := ["siem"; "soar"; "zero_trust"; "cissp"];
       job_description := Some
         "We need a mid-level security engineer with SIEM/SOAR, Zero Trust, and CISSP preferred." |};
    {| role := "Cloud Security Engineer"; level := "Senior";
       years_experience := 9; state := "CA";
       skills := ["aws_security"; "kubernetes"; "terraform"; "cnapp"; "ccsp"];
       job_description := Some
         "Senior Cloud Security Engineer - AWS, Kubernetes, Terraform, CNAPP, CCSP." |};
    {| role := "SOC Analyst"; level := "Entry";
       years_experience := 1; state := "REMOTE";
       skills := ["siem"; "edr"; "security_plus"];
       job_description := Some
         "Entry SOC analyst with EDR and SIEM experience. Security+ is a plus." |} ].

(** ** The chart of [Python/chart.py] *)

(** A list comprehension whose body can raise. *)
Fixpoint map_result {A B : Type} (f : A -> result B) (l : list A)
  : result (list B) :=
  match l with
  | [] => ret []
  | x :: rest =>
      y <- f x ;;
      ys <- map_result f rest ;;
      ret (y :: ys)
  end.

(** Element-wise difference of two arrays of the same length. *)
Definition array_sub (xs ys : list Q) : list Q :=
  map (fun p => fst p - snd p) (combine xs ys).

Definition newline : string := String (ascii_of_nat 10) "".

(** What [plot_salary_bars_2026] hands to [plt.bar] and [plt.xticks]. *)
Record BarChart : Type := {
  chart_x : list nat;
  chart_labels : list string;
  chart_heights : list Q;
  chart_yerr : list Q * list Q
}.

(** [plot_salary_bars_2026] up to the drawing calls. *)
Definition plot_salary_bars_2026 (examples : list PredictionInput)
  : result BarChart :=
  results <- map_result (fun ex => predict_2026 ex None) examples ;;
  let labels :=
    map (fun ex =>
           role ex ++ newline ++ "(" ++ state ex ++ ", " ++ level ex ++ ")")
        examples in
  let mids := map final_mid results in
  let lows := map final_low results in
  let highs := map final_high results in
  let yerr := (array_sub mids lows, array_sub highs mids) in
  let x := seq 0 (length labels) in
  ret {| chart_x := x; chart_labels := labels; chart_heights := mids;
         chart_yerr := yerr |}.

(** The three examples of [chart.py]. *)
Definition chart_examples : list PredictionInput :=
  [ {| role := "Cybersecurity Engineer"; level := "Mid";
       years_experience := 4; state := "TX";
       skills := ["siem"; "soar"; "zero_trust"; "cissp"];
       job_description := None |};
    {| role := "Cloud Security Engineer"; level := "Senior";
       years_experience := 9; state := "CA";
       skills := ["aws_security"; "kubernetes"; "terraform"; "cnapp"; "ccsp"];
       job_description := None |};
    {| role := "SOC Analyst"; level := "Entry";
       years_experience := 1; state := "REMOTE";
       skills := ["siem"; "edr"; "security_plus"];
       job_description := None |} ].

(** ** [money]: the format [f"${x:,.0f}"] *)

(** Rounding to the nearest integer, ties to the even one, as the
    fixed-point format with no decimals does. *)
Definition round_half_even (x : Q) : Z :=
  let f := Qfloor x in
  match Qcompare (x - inject_Z f) (1 # 2) with
  | Lt => f
  | Gt => (f + 1)%Z
  | Eq => if Z.even f then f else (f + 1)%Z
  end.

(** The decimal digits of a natural number. *)
Definition digits (n : N) : string :=
  NilZero.string_of_uint (N.to_uint n).

(** The thousands separator, on the digits from the least significant
    one: [k] digits are left to write before the next comma. *)
Fixpoint commas_from (k : nat) (l : list ascii) : list ascii :=
  match l with
  | [] => []
  | c :: rest =>
      match k with
      | O => "," :: c :: commas_from 2 rest
      | S k' => c :: commas_from k' rest
      end
  end%char.

Definition group (s : string) : string :=
  string_of_list_ascii
    (List.rev (commas_from 3 (List.rev (list_ascii_of_string s)))).

Definition money (x : Q) : string :=
  "$" ++ (if Qlt_le_dec x 0 then "-" else "")
      ++ group (digits (Z.abs_N (round_half_even x))).

(** ** Definitions used to state the properties *)

(** The premium of one token as the specification words it: the table
    entry when there is one, zero otherwise. *)
Definition premium_of (s : string) : Q :=
  match lookup SKILL_PREMIUM s with
  | Some p => p
  | None => 0
  end.

(** The sum of the table premiums of a list of tokens. *)
Fixpoint premium_sum (skills : list string) : Q :=
  match skills with
  | [] => 0
  | s :: rest => premium_of s + premium_sum rest
  end.

(** The closed formula of the specification. *)
Definition skills_formula (skills : list string) : Q :=
  1 + 0.85 * Qmin (premium_sum skills) 0.25.

(** Target years of experience per level, as the specification lists
    them. *)
Definition target_years (level : string) : Q :=
  if String.eqb level "entry" then 1
  else if String.eqb level "mid" then 4
  else if String.eqb level "senior" then 8
  else 4.

(** Leverage per role key, as the specification lists it. *)
Definition leverage_of (role_key : string) : Q :=
  if String.eqb role_key "security_architect" then 0.010
  else if String.eqb role_key "cloud_security_engineer" then 0.010
  else if String.eqb role_key "devsecops_engineer" then 0.010
  else 0.008.

(** [clamp(x, lo, hi)] of the specification. *)
Definition clamp (x lo hi : Q) : Q :=
  if Qlt_le_dec x lo then lo else if Qlt_le_dec hi x then hi else x.

(** The three level keys of every baseline row. *)
Definition LEVEL_KEYS : list string := ["entry"; "mid"; "senior"].

Definition is_level (level : string) : bool :=
  existsb (String.eqb level) LEVEL_KEYS.

Definition is_role_key (role_key : string) : bool :=
  mem role_key BASELINES_2024.

(** A role that hits no alias, exactly or by containment, after trimming
    and lower-casing. *)
Definition unknown_role (role : string) : Prop :=
  let r := PyStr.lower (PyStr.strip role) in
  ~ In r (keys ROLE_ALIASES)
  /\ (forall k, In k (keys ROLE_ALIASES) -> PyStr.contains k r = false)
  /\ ~ In (PyStr.replace " " "_" r) (keys BASELINES_2024).

Definition unknown_level (level : string) : Prop :=
  let l := PyStr.lower (PyStr.strip level) in
  ~ In l (keys LEVEL_ALIASES)
  /\ (forall k, In k (keys LEVEL_ALIASES) -> PyStr.contains k l = false).

(** A location code that is not a key of the geo table once trimmed and
    upper-cased. *)
Definition unknown_location (state : string) : Prop :=
  ~ In (PyStr.upper (PyStr.strip state)) (keys GEO_MULTIPLIER).

(** The three predicates are decided by evaluation. *)
Definition unknown_roleb (role : string) : bool :=
  let r := PyStr.lower (PyStr.strip role) in
  negb (mem r ROLE_ALIASES)
  && forallb (fun k => negb (PyStr.contains k r)) (keys ROLE_ALIASES)
  && negb (mem (PyStr.replace " " "_" r) BASELINES_2024).

Definition unknown_levelb (level : string) : bool :=
  let l := PyStr.lower (PyStr.strip level) in
  negb (mem l LEVEL_ALIASES)
  && forallb (fun k => negb (PyStr.contains k l)) (keys LEVEL_ALIASES).

Definition unknown_locationb (state : string) : bool :=
  negb (mem (PyStr.upper (PyStr.strip state)) GEO_MULTIPLIER).

Definition str_le (x y : string) : Prop := String.leb x y = true.

Definition soc_description : string :=
  "Entry SOC analyst with EDR and SIEM experience. Security+ is a plus.".

(** What evaluation shows of every row of [BASELINES_2024]: its keys are
    exactly the three level keys and each pair is ordered. *)
Definition row_ok (by_level : dict (Z * Z)) : bool :=
  forallb (fun l => mem l by_level) LEVEL_KEYS
  && forallb is_level (keys by_level)
  && forallb (fun p => (fst p <=? snd p)%Z) (values by_level).

(** The role key and the level that index the baseline table. *)
Definition guarded_role (role_key : string) : string :=
  if is_role_key role_key then role_key else "cybersecurity_engineer".

Definition guarded_level (level : string) : string :=
  if is_level level then level else "mid".

Definition growth_factor (role_key : string) : Q :=
  (1.0 + get CAGR_BY_ROLE role_key 0.05) ^ 2.

Definition geo_of (state : string) : Q :=
  get GEO_MULTIPLIER (PyStr.upper (PyStr.strip state)) 1.00.

(** Candidates A and E of the blend, computed from the baseline pair and
    the resolved role key, level and skills with the engine's own factor
    functions: A is the post-growth, post-inflation pair, E is A times
    the skills, geo and regression multipliers. *)
Definition candidate_A (base : Z * Z) (role_key : string) : result (Q * Q) :=
  '(cagr_low, cagr_high) <-
    apply_cagr (inject_Z (fst base)) (inject_Z (snd base)) role_key 2 ;;
  ret (apply_inflation cagr_low cagr_high).

Definition candidate_E (base : Z * Z) (role_key level : string)
    (skills : list string) (state : string) (years : Q) : result (Q * Q) :=
  '(a_low, a_high) <- candidate_A base role_key ;;
  g_mult <- compute_geo_multiplier state ;;
  let s_mult := compute_skills_multiplier skills in
  let r_mult := regression_adjustment role_key level years in
  ret (a_low * s_mult * g_mult * r_mult, a_high * s_mult * g_mult * r_mult).

(** The sequential blend A -> B -> D -> E of one bound [a]. *)
Definition blended (a s g r w_sk w_geo w_reg : Q) : Q :=
  lerp (lerp (lerp a (a * s) w_sk) (a * s * g) w_geo) (a * s * g * r) w_reg.

(** What [blend] returns, field by field. *)
Record blend_facts (b : PredictionBreakdown) (role_key level : string)
    (base : Z * Z) (skills : list string) (state : string) (years : Q)
    (w_sk w_geo w_reg : Q) : Prop := {
  bf_base_low : baseline_low b = inject_Z (fst base);
  bf_base_high : baseline_high b = inject_Z (snd base);
  bf_cagr_low : cagr_low b = baseline_low b * growth_factor role_key;
  bf_cagr_high : cagr_high b = baseline_high b * growth_factor role_key;
  bf_infl_low : inflation_low b = cagr_low b * INFLATION_2024_TO_2026;
  bf_infl_high : inflation_high b = cagr_high b * INFLATION_2024_TO_2026;
  bf_skills : skills_multiplier b = compute_skills_multiplier skills;
  bf_geo : geo_multiplier b = geo_of state;
  bf_reg : regression_adjustment_factor b
           = regression_adjustment role_key level years;
  bf_low : final_low b
           = blended (inflation_low b) (skills_multiplier b)
               (geo_multiplier b) (regression_adjustment_factor b)
               w_sk w_geo w_reg;
  bf_high : final_high b
            = blended (inflation_high b) (skills_multiplier b)
                (geo_multiplier b) (regression_adjustment_factor b)
                w_sk w_geo w_reg;
  bf_mid : final_mid b = (final_low b + final_high b) / 2.0
}.

(** The role key, level and skills after enrichment, given the caller's
    normalized role and level. *)
Definition enriched (inp : PredictionInput) (role_key level : string)
  : string * string * list string :=
  match described (job_description inp) with
  | Some text =>
      let ext := extract_from_text text in
      (match ext_role_key ext with Some found => found | None => role_key end,
       match ext_level ext with Some found => found | None => level end,
       PyStr.sorted (PyStr.set (skills inp ++ ext_skills ext)))
  | None => (role_key, level, skills inp)
  end.

Definition soc_input : PredictionInput :=
  {| role := "SOC Analyst"; level := "Entry"; years_experience := 1;
     state := "REMOTE"; skills := ["siem"; "edr"; "security_plus"];
     job_description := Some soc_description |}.

Definition all_weights (w : Q) : dict Q :=
  [ ("cagr", 0.20); ("inflation", 0.20); ("skills", w); ("geo", w);
    ("regression", w) ].

(** An input without a job description. *)
Definition plain_input (skills : list string) : PredictionInput :=
  {| role := "SOC Analyst"; level := "Entry"; years_experience := 1;
     state := "REMOTE"; skills := skills; job_description := None |}.

(** A string made of whitespace only. *)
Fixpoint blank (s : string) : bool :=
  match s with
  | EmptyString => true
  | String c s' => PyStr.is_space c && blank s'
  end.

(** A blank, a tab and a line feed. *)
Definition padding : string :=
  String " " (String (ascii_of_nat 9) (String (ascii_of_nat 10) "")).

(** The alias scan of [extract_from_text] and of the containment step of
    [normalize_role], on an already lowered text. *)
Definition role_hit (t : string) : option string :=
  first_hit (fun k => PyStr.contains k t) ROLE_ALIASES.


(** The tokens of a list that have an entry in [SKILL_PREMIUM]. *)
Definition known_skills (skills : list string) : list string :=
  filter (fun s => mem s SKILL_PREMIUM) skills.

(** Five certifications whose premiums add up to 0.26. *)
Definition five_certs : list string :=
  ["oscp"; "gcih"; "gcfa"; "gpen"; "cissp"].

(** Every baseline figure of a row is positive. *)
Definition row_positive (by_level : dict (Z * Z)) : bool :=
  forallb (fun p => (0 <? fst p)%Z && (0 <? snd p)%Z) (values by_level).

(** A weight configuration that sets the two unused entries to other
    values and adds a key of its own. *)
Definition other_weights : dict Q :=
  [ ("note", 7); ("regression", 0.20); ("geo", 0.20); ("skills", 0.20);
    ("cagr", 0.9); ("inflation", 0) ].

(** The input [inp] with another skills list, and with other years of
    experience. *)
Definition with_skills (inp : PredictionInput) (l : list string)
  : PredictionInput :=
  {| role := role inp; level := level inp;
     years_experience := years_experience inp; state := state inp;
     skills := l; job_description := job_description inp |}.

Definition with_years (inp : PredictionInput) (years : Q) : PredictionInput :=
  {| role := role inp; level := level inp;
     years_experience := years; state := state inp;
     skills := skills inp; job_description := job_description inp |}.

Definition with_description (inp : PredictionInput) (d : option string)
  : PredictionInput :=
  {| role := role inp; level := level inp;
     years_experience := years_experience inp; state := state inp;
     skills := skills inp; job_description := d |}.

(** Two breakdowns with the same three final figures, up to [==]. *)
Definition same_finals (b b' : PredictionBreakdown) : Prop :=
  final_low b == final_low b'
  /\ final_mid b == final_mid b'
  /\ final_high b == final_high b'.

(** No final figure of [b] exceeds that of [b']. *)
Definition finals_le (b b' : PredictionBreakdown) : Prop :=
  final_low b <= final_low b'
  /\ final_mid b <= final_mid b'
  /\ final_high b <= final_high b'.




(** ** Generic facts about dictionaries and the error monad *)

Section DictFacts.
Context {V : Type}.
Implicit Types (d : dict V) (k : string) (v : V).

Lemma lookup_In d k v : lookup d k = Some v -> In (k, v) d.
Proof.
  induction d as [|[k' v'] d IH]; simpl; [discriminate|].
  destruct (String.eqb_spec k k') as [->|_].
  - intros [= ->]. now left.
  - intros H. right. now apply IH.
Qed.

Lemma lookup_values d k v : lookup d k = Some v -> In v (values d).
Proof.
  intros H. apply lookup_In in H.
  unfold values. change v with (snd (k, v)). now apply in_map.
Qed.

Lemma lookup_keys d k v : lookup d k = Some v -> In k (keys d).
Proof.
  intros H. apply lookup_In in H.
  unfold keys. change k with (fst (k, v)). now apply in_map.
Qed.

Lemma lookup_None_keys d k : lookup d k = None -> ~ In k (keys d).
Proof.
  induction d as [|[k' v'] d IH]; simpl; [tauto|].
  destruct (String.eqb_spec k k') as [->|Hne]; [discriminate|].
  intros H [Heq|Hin]; [congruence | now apply IH].
Qed.

Lemma mem_true d k : mem k d = true -> exists v, lookup d k = Some v.
Proof.
  unfold mem. destruct (lookup d k) as [v|]; [eauto | discriminate].
Qed.

Lemma mem_false d k : mem k d = false -> lookup d k = None.
Proof.
  unfold mem. now destruct (lookup d k).
Qed.

Lemma getitem_Some d k v : lookup d k = Some v -> getitem d k = inr v.
Proof. unfold getitem. now intros ->. Qed.

Lemma get_Some d k v default : lookup d k = Some v -> get d k default = v.
Proof. unfold get. now intros ->. Qed.

Lemma get_None d k default : lookup d k = None -> get d k default = default.
Proof. unfold get. now intros ->. Qed.

Lemma get_cases d k default :
  In (get d k default) (values d) \/ get d k default = default.
Proof.
  unfold get. destruct (lookup d k) as [v|] eqn:H; [left | now right].
  eapply lookup_values; eauto.
Qed.

Lemma first_hit_values test d v :
  first_hit test d = Some v -> In v (values d).
Proof.
  unfold first_hit. destruct (find _ d) as [[k' v']|] eqn:H; [|discriminate].
  intros [= <-]. apply find_some in H as [H _].
  unfold values. change v' with (snd (k', v')). now apply in_map.
Qed.

Lemma first_hit_None test d :
  first_hit test d = None <-> forall k, In k (keys d) -> test k = false.
Proof.
  unfold first_hit, keys. split.
  - destruct (find _ d) eqn:H; [discriminate|]. intros _ k Hin.
    apply in_map_iff in Hin as ([k' v'] & <- & Hin).
    apply (find_none _ _ H _ Hin).
  - intros H. destruct (find _ d) as [[k' v']|] eqn:Hf; [|reflexivity].
    apply find_some in Hf as [Hin Ht]. simpl in Ht.
    rewrite (H k') in Ht; [discriminate|].
    change k' with (fst (k', v')). now apply in_map.
Qed.

Lemma truthy_lookup d k v : lookup d k = Some v -> truthy d = true.
Proof. now destruct d. Qed.
End DictFacts.

(** A property checked on every value of a table by evaluation. *)
Lemma values_forallb {V} (P : V -> bool) (d : dict V) v :
  forallb P (values d) = true -> In v (values d) -> P v = true.
Proof. intros H. now apply forallb_forall. Qed.

Lemma bind_inr {A B} (x : A) (f : A -> result B) : bind (inr x) f = f x.
Proof. reflexivity. Qed.

Lemma bind_inl {A B} (e : PyError) (f : A -> result B) :
  bind (inl e : result A) f = inl e.
Proof. reflexivity. Qed.

(** ** The tables are dictionaries: no key is bound twice *)

Lemma distinct_by_evaluation (l : list string) :
  nodup string_dec l = l -> NoDup l.
Proof. intros <-. apply NoDup_nodup. Qed.

Lemma tables_distinct_keys :
  NoDup (keys BASELINES_2024)
  /\ Forall (fun row => NoDup (keys row)) (values BASELINES_2024)
  /\ NoDup (keys CAGR_BY_ROLE)
  /\ NoDup (keys GEO_MULTIPLIER)
  /\ NoDup (keys SKILL_PREMIUM)
  /\ NoDup (keys ROLE_ALIASES)
  /\ NoDup (keys LEVEL_ALIASES)
  /\ NoDup (keys DEFAULT_WEIGHTS).
Proof.
  repeat split;
    try (apply distinct_by_evaluation; vm_compute; reflexivity).
  apply Forall_forall. intros row Hrow. apply distinct_by_evaluation.
  apply (forallb_forall
           (fun row => if list_eq_dec string_dec
                            (nodup string_dec (keys row)) (keys row)
                       then true else false)
           (values BASELINES_2024)) in Hrow.
  - now destruct (list_eq_dec string_dec _ _).
  - vm_compute. reflexivity.
Qed.

(** ** The skills premium *)

Lemma get_premium_of s : get SKILL_PREMIUM s 0.0 == premium_of s.
Proof.
  unfold get, premium_of. destruct (lookup SKILL_PREMIUM s); reflexivity.
Qed.

Lemma premium_of_nonneg s : 0 <= premium_of s.
Proof.
  unfold premium_of. destruct (lookup SKILL_PREMIUM s) as [p|] eqn:H.
  - apply lookup_values in H. apply Qle_bool_iff.
    now apply (values_forallb (Qle_bool 0) SKILL_PREMIUM).
  - apply Qle_refl.
Qed.

Lemma premium_sum_nonneg skills : 0 <= premium_sum skills.
Proof.
  induction skills as [|s rest IH]; simpl.
  - apply Qle_refl.
  - pose proof (premium_of_nonneg s). lra.
Qed.

Lemma premium_sum_app l1 l2 :
  premium_sum (l1 ++ l2) == premium_sum l1 + premium_sum l2.
Proof.
  induction l1 as [|s l1 IH]; simpl; [lra | rewrite IH; lra].
Qed.

(** The accumulator loop of [compute_skills_multiplier]. *)
Lemma premium_loop skills acc :
  fold_left (fun total s => total + get SKILL_PREMIUM s 0.0) skills acc
  == acc + premium_sum skills.
Proof.
  revert acc. induction skills as [|s rest IH]; intros acc; simpl.
  - lra.
  - rewrite IH, get_premium_of. lra.
Qed.

Lemma compute_skills_multiplier_formula skills :
  compute_skills_multiplier skills == skills_formula skills.
Proof.
  unfold compute_skills_multiplier, skills_formula.
  rewrite premium_loop.
  assert (E : 0.0 + premium_sum skills == premium_sum skills) by lra.
  rewrite E. lra.
Qed.

Lemma skills_formula_bounds skills :
  1 <= skills_formula skills <= 1.2125.
Proof.
  unfold skills_formula.
  pose proof (premium_sum_nonneg skills) as Hs.
  assert (0 <= Qmin (premium_sum skills) 0.25) by (apply Q.min_glb; lra).
  pose proof (Q.le_min_r (premium_sum skills) 0.25).
  lra.
Qed.

Lemma skills_formula_insert before x after :
  skills_formula (before ++ after) <= skills_formula (before ++ x :: after).
Proof.
  unfold skills_formula.
  assert (H : premium_sum (before ++ after)
              <= premium_sum (before ++ x :: after)).
  { rewrite !premium_sum_app. simpl.
    pose proof (premium_of_nonneg x). lra. }
  apply (Q.min_le_compat_r _ _ 0.25) in H. lra.
Qed.

(** C2.  For every list of skill tokens [compute_skills_multiplier] is
    [1 + 0.85 * min (sum of the table premiums, 0.25)], tokens that are
    not in the premium table counting for zero, and the value lies in
    the interval [1.0, 1.2125]. *)
Theorem compute_skills_multiplier_spec (skills : list string) :
  compute_skills_multiplier skills
    == 1 + 0.85 * Qmin (premium_sum skills) 0.25
  /\ 1.0 <= compute_skills_multiplier skills <= 1.2125.
Proof.
  pose proof (compute_skills_multiplier_formula skills) as E.
  pose proof (skills_formula_bounds skills) as B.
  unfold skills_formula in *. split; [exact E|]. rewrite E. lra.
Qed.

(** C8.  Adding a skill token, at any place of the collection, never
    lowers the skills multiplier, and the multiplier never exceeds
    1.2125. *)
Theorem compute_skills_multiplier_monotone
    (before after : list string) (x : string) :
  compute_skills_multiplier (before ++ after)
    <= compute_skills_multiplier (before ++ x :: after)
  /\ compute_skills_multiplier (before ++ after) <= 1.2125
  /\ compute_skills_multiplier (before ++ x :: after) <= 1.2125.
Proof.
  rewrite !compute_skills_multiplier_formula. repeat split.
  - apply skills_formula_insert.
  - apply skills_formula_bounds.
  - apply skills_formula_bounds.
Qed.

(** ** The experience regression factor *)

Lemma clip_clamp x lo hi : lo <= hi -> clip x lo hi == clamp x lo hi.
Proof.
  intros Hlh. unfold clip, clamp.
  destruct (Qlt_le_dec x lo) as [Hlt|Hge].
  - rewrite (Q.max_r x lo) by lra. now apply Q.min_l.
  - rewrite (Q.max_l x lo) by lra.
    destruct (Qlt_le_dec hi x) as [Hgt|Hle].
    + apply Q.min_r. lra.
    + now apply Q.min_l.
Qed.

Lemma clip_bounds x lo hi : lo <= hi -> lo <= clip x lo hi <= hi.
Proof.
  intros Hlh. unfold clip. split.
  - apply Q.min_glb; [apply Q.le_max_r | exact Hlh].
  - apply Q.le_min_r.
Qed.

Lemma target_years_get level : get LEVEL_TARGET level 4.0 == target_years level.
Proof.
  unfold get, target_years, LEVEL_TARGET, lookup.
  repeat (destruct (String.eqb level _); [reflexivity|]). reflexivity.
Qed.

Lemma leverage_of_set role_key :
  (if existsb (String.eqb role_key) EXPERIENCE_SENSITIVE
   then 0.010 else 0.008) = leverage_of role_key.
Proof.
  unfold leverage_of, EXPERIENCE_SENSITIVE, existsb.
  repeat (destruct (String.eqb role_key _); [reflexivity|]). reflexivity.
Qed.

Lemma regression_adjustment_bounds role_key level years_exp :
  0.95 <= regression_adjustment role_key level years_exp <= 1.08.
Proof.
  unfold regression_adjustment.
  match goal with
  | |- context [clip ?x ?lo ?hi] =>
      assert (B : lo <= clip x lo hi <= hi) by (apply clip_bounds; lra)
  end.
  lra.
Qed.

(** C6.  [regression_adjustment] is
    [1 + clamp ((years - target) * leverage, -0.05, 0.08)] with the
    target 1, 4, 8 for entry, mid, senior and 4 for any other level, and
    the leverage 0.010 on the three experience-sensitive role keys and
    0.008 elsewhere; the multiplier lies in [0.95, 1.08]. *)
Theorem regression_adjustment_spec
    (role_key level : string) (years_exp : Q) :
  regression_adjustment role_key level years_exp
    == 1 + clamp ((years_exp - target_years level) * leverage_of role_key)
                 (-0.05) 0.08
  /\ 0.95 <= regression_adjustment role_key level years_exp <= 1.08.
Proof.
  split; [|apply regression_adjustment_bounds].
  unfold regression_adjustment.
  rewrite leverage_of_set, clip_clamp by lra.
  assert (E : (years_exp - get LEVEL_TARGET level 4.0) * leverage_of role_key
              == (years_exp - target_years level) * leverage_of role_key)
    by (rewrite target_years_get; reflexivity).
  assert (C : forall a b, a == b -> clamp a (-0.05) 0.08 == clamp b (-0.05) 0.08).
  { intros a b Hab. rewrite <- !clip_clamp by lra. unfold clip.
    now rewrite Hab. }
  rewrite (C _ _ E). lra.
Qed.

(** ** The normalizer *)

Lemma role_alias_values v :
  In v (values ROLE_ALIASES) -> is_role_key v = true /\ PyStr.nonempty v = true.
Proof.
  intros H. apply andb_true_iff.
  now apply (values_forallb
               (fun v => is_role_key v && PyStr.nonempty v) ROLE_ALIASES).
Qed.

Lemma level_alias_values v :
  In v (values LEVEL_ALIASES) -> is_level v = true /\ PyStr.nonempty v = true.
Proof.
  intros H. apply andb_true_iff.
  now apply (values_forallb
               (fun v => is_level v && PyStr.nonempty v) LEVEL_ALIASES).
Qed.

(** [normalize_role] never fails and lands on a key of the baseline
    table. *)
Lemma normalize_role_total role :
  exists role_key,
    normalize_role role = inr role_key /\ is_role_key role_key = true.
Proof.
  unfold normalize_role.
  set (r := PyStr.lower (PyStr.strip role)).
  destruct (mem r ROLE_ALIASES) eqn:Hm.
  - apply mem_true in Hm as [v Hv]. exists v.
    split; [now apply getitem_Some|].
    apply lookup_values in Hv. now apply role_alias_values.
  - destruct (first_hit _ ROLE_ALIASES) as [v|] eqn:Hf.
    + exists v. split; [reflexivity|].
      apply first_hit_values in Hf. now apply role_alias_values.
    + destruct (mem (PyStr.replace " " "_" r) BASELINES_2024) eqn:Hk.
      * now exists (PyStr.replace " " "_" r).
      * now exists "cybersecurity_engineer".
Qed.

Lemma normalize_level_total level :
  exists key, normalize_level level = inr key /\ is_level key = true.
Proof.
  unfold normalize_level.
  set (l := PyStr.lower (PyStr.strip level)).
  destruct (mem l LEVEL_ALIASES) eqn:Hm.
  - apply mem_true in Hm as [v Hv]. exists v.
    split; [now apply getitem_Some|].
    apply lookup_values in Hv. now apply level_alias_values.
  - destruct (first_hit _ LEVEL_ALIASES) as [v|] eqn:Hf.
    + exists v. split; [reflexivity|].
      apply first_hit_values in Hf. now apply level_alias_values.
    + now exists "mid".
Qed.

Lemma compute_geo_multiplier_eq state :
  compute_geo_multiplier state
  = inr (get GEO_MULTIPLIER (PyStr.upper (PyStr.strip state)) 1.00).
Proof. reflexivity. Qed.

Lemma not_in_keys_mem {V} (d : dict V) k : ~ In k (keys d) -> mem k d = false.
Proof.
  intros H. unfold mem. destruct (lookup d k) as [v|] eqn:Hl; [|reflexivity].
  exfalso. apply H. eapply lookup_keys; eauto.
Qed.

Lemma mem_false_keys {V} (d : dict V) k : mem k d = false -> ~ In k (keys d).
Proof. intros H. now apply lookup_None_keys, mem_false. Qed.

Lemma unknown_role_check role : unknown_roleb role = true -> unknown_role role.
Proof.
  unfold unknown_roleb, unknown_role. cbv zeta.
  rewrite !andb_true_iff, !negb_true_iff. intros [[He Hs] Hk].
  repeat split.
  - now apply mem_false_keys.
  - intros k Hin. apply negb_true_iff.
    now apply (proj1 (forallb_forall _ _) Hs).
  - now apply mem_false_keys.
Qed.

Lemma unknown_level_check level :
  unknown_levelb level = true -> unknown_level level.
Proof.
  unfold unknown_levelb, unknown_level. cbv zeta.
  rewrite !andb_true_iff, !negb_true_iff. intros [He Hs].
  split.
  - now apply mem_false_keys.
  - intros k Hin. apply negb_true_iff.
    now apply (proj1 (forallb_forall _ _) Hs).
Qed.

Lemma unknown_location_check state :
  unknown_locationb state = true -> unknown_location state.
Proof.
  unfold unknown_locationb, unknown_location.
  rewrite negb_true_iff. apply mem_false_keys.
Qed.

(** C5.  An unknown role normalizes to the generic key
    [cybersecurity_engineer], an unknown level to [mid], and an unknown
    location code (the empty one included) has geo multiplier 1.0; none
    of the three operations fails. *)
Theorem unknown_inputs_fall_back (role level state : string) :
  (unknown_role role -> normalize_role role = inr "cybersecurity_engineer")
  /\ (unknown_level level -> normalize_level level = inr "mid")
  /\ (unknown_location state ->
      exists m, compute_geo_multiplier state = inr m /\ m == 1.0)
  /\ unknown_location ""
  /\ exists m, compute_geo_multiplier "" = inr m /\ m == 1.0.
Proof.
  split; [|split; [|split; [|split]]].
  - intros (Hexact & Hsub & Hkey). unfold normalize_role.
    rewrite (not_in_keys_mem _ _ Hexact).
    rewrite (proj2 (first_hit_None _ _) Hsub).
    now rewrite (not_in_keys_mem _ _ Hkey).
  - intros (Hexact & Hsub). unfold normalize_level.
    rewrite (not_in_keys_mem _ _ Hexact).
    now rewrite (proj2 (first_hit_None _ _) Hsub).
  - intros Habs. rewrite compute_geo_multiplier_eq.
    eexists; split; [reflexivity|].
    apply not_in_keys_mem, mem_false in Habs.
    now rewrite (get_None _ _ _ Habs).
  - now apply unknown_location_check.
  - eexists; split; reflexivity.
Qed.

Lemma unknown_inputs_fall_back_witness :
  normalize_role "  Astronaut " = inr "cybersecurity_engineer"
  /\ normalize_level "Wizard" = inr "mid"
  /\ exists m, compute_geo_multiplier "zz" = inr m /\ m == 1.0.
Proof.
  destruct (unknown_inputs_fall_back "  Astronaut " "Wizard" "zz")
    as (Hr & Hl & Hg & _).
  split; [|split].
  - apply Hr, unknown_role_check. vm_compute. reflexivity.
  - apply Hl, unknown_level_check. vm_compute. reflexivity.
  - apply Hg, unknown_location_check. vm_compute. reflexivity.
Defined.

(** ** [sorted(set(l))]: a duplicate-free, ordered list of the same tokens *)

Lemma leb_flip x y : String.leb x y = false -> String.leb y x = true.
Proof.
  unfold String.leb. rewrite (String.compare_antisym y x).
  now destruct (String.compare x y).
Qed.

Lemma insert_perm x l : Permutation (PyStr.insert x l) (x :: l).
Proof.
  induction l as [|y l IH]; simpl; [reflexivity|].
  destruct (String.leb x y); [reflexivity|].
  rewrite IH. apply perm_swap.
Qed.

Lemma insert_hd x y l :
  str_le y x -> HdRel str_le y l -> HdRel str_le y (PyStr.insert x l).
Proof.
  intros Hyx Hl. destruct l as [|z l]; simpl.
  - now constructor.
  - destruct (String.leb x z); constructor; [exact Hyx|].
    now inversion Hl.
Qed.

Lemma insert_sorted x l :
  Sorted str_le l -> Sorted str_le (PyStr.insert x l).
Proof.
  induction 1 as [|y l Hs IH Hhd]; simpl.
  - repeat constructor.
  - destruct (String.leb x y) eqn:Hxy.
    + constructor; [now constructor | now constructor].
    + constructor; [exact IH|].
      apply insert_hd; [now apply leb_flip | exact Hhd].
Qed.

Lemma sorted_perm l : Permutation (PyStr.sorted l) l.
Proof.
  induction l as [|x l IH]; simpl; [reflexivity|].
  rewrite insert_perm. now constructor.
Qed.

Lemma sorted_Sorted l : Sorted str_le (PyStr.sorted l).
Proof.
  induction l as [|x l IH]; simpl; [constructor | now apply insert_sorted].
Qed.

Lemma sorted_set_NoDup l : NoDup (PyStr.sorted (PyStr.set l)).
Proof.
  apply (Permutation_NoDup (Permutation_sym (sorted_perm _))).
  apply NoDup_nodup.
Qed.

Lemma sorted_set_In l x : In x (PyStr.sorted (PyStr.set l)) <-> In x l.
Proof.
  unfold PyStr.set. rewrite <- (nodup_In string_dec l x). split.
  - apply Permutation_in, sorted_perm.
  - apply Permutation_in, Permutation_sym, sorted_perm.
Qed.

(** ** The extractor *)

(** The level aliases are read literally by the regex engine. *)
Lemma level_alias_keys_literal :
  forallb PyStr.literal (keys LEVEL_ALIASES) = true.
Proof. reflexivity. Qed.

Lemma extract_role_key text v :
  ext_role_key (extract_from_text text) = Some v ->
  is_role_key v = true /\ PyStr.nonempty v = true.
Proof.
  unfold extract_from_text. simpl. intros H.
  apply first_hit_values in H. now apply role_alias_values.
Qed.

Lemma extract_level text v :
  ext_level (extract_from_text text) = Some v ->
  is_level v = true /\ PyStr.nonempty v = true.
Proof.
  unfold extract_from_text. simpl. intros H.
  apply first_hit_values in H. now apply level_alias_values.
Qed.

Example extract_soc_description :
  extract_from_text soc_description
  = {| ext_role_key := Some "soc_analyst";
       ext_level := Some "entry";
       ext_skills := ["edr"; "security_plus"; "siem"] |}.
Proof. vm_compute. reflexivity. Qed.

(** C9.  On the entry-level SOC analyst description the extractor finds
    the skills [siem], [edr] and the normalized certification token
    [security_plus], and the level [entry]. *)
Theorem extract_from_text_soc_scenario :
  let ext :=
    extract_from_text
      "Entry SOC analyst with EDR and SIEM experience. Security+ is a plus." in
  In "siem" (ext_skills ext)
  /\ In "edr" (ext_skills ext)
  /\ In "security_plus" (ext_skills ext)
  /\ ext_level ext = Some "entry".
Proof.
  change (extract_from_text _) with (extract_from_text soc_description).
  rewrite extract_soc_description. simpl. intuition.
Qed.

(** ** The baseline lookup behind its two guards *)

Lemma baseline_rows role_key by_level :
  lookup BASELINES_2024 role_key = Some by_level -> row_ok by_level = true.
Proof.
  intros H. apply lookup_values in H.
  now apply (values_forallb row_ok BASELINES_2024).
Qed.

Lemma row_mem by_level level :
  row_ok by_level = true -> mem level by_level = is_level level.
Proof.
  unfold row_ok. rewrite !andb_true_iff. intros [[Hall Hkeys] _].
  destruct (is_level level) eqn:Hl.
  - unfold is_level in Hl. apply existsb_exists in Hl as (l & Hin & Heq).
    apply String.eqb_eq in Heq as ->.
    now apply (proj1 (forallb_forall _ _) Hall).
  - destruct (mem level by_level) eqn:Hm; [|reflexivity].
    apply mem_true in Hm as [v Hv]. apply lookup_keys in Hv.
    rewrite <- Hl. symmetry. now apply (proj1 (forallb_forall _ _) Hkeys).
Qed.

Lemma row_ordered by_level level base :
  row_ok by_level = true -> lookup by_level level = Some base ->
  (fst base <= snd base)%Z.
Proof.
  unfold row_ok. rewrite !andb_true_iff. intros [_ Hord] H.
  apply lookup_values in H. apply Z.leb_le.
  now apply (proj1 (forallb_forall _ _) Hord).
Qed.

Lemma guarded_role_ok role_key : is_role_key (guarded_role role_key) = true.
Proof.
  unfold guarded_role. now destruct (is_role_key role_key) eqn:H.
Qed.

Lemma guarded_level_ok level : is_level (guarded_level level) = true.
Proof.
  unfold guarded_level. now destruct (is_level level) eqn:H.
Qed.

(** The subscripts of lines 325 and 328 never raise: the guards make
    the keys present. *)
Lemma baseline_for_total role_key level :
  exists by_level base,
    baseline_for role_key level
    = inr (guarded_role role_key, guarded_level level, base)
    /\ lookup BASELINES_2024 (guarded_role role_key) = Some by_level
    /\ lookup by_level (guarded_level level) = Some base
    /\ (fst base <= snd base)%Z.
Proof.
  unfold baseline_for. fold (is_role_key role_key).
  fold (guarded_role role_key).
  destruct (mem_true _ _ (guarded_role_ok role_key)) as [by_level Hrow].
  pose proof (baseline_rows _ _ Hrow) as Hok.
  rewrite (getitem_Some _ _ _ Hrow), !bind_inr.
  rewrite (row_mem _ level Hok). fold (guarded_level level).
  assert (Hm : mem (guarded_level level) by_level = true)
    by (rewrite (row_mem _ _ Hok); apply guarded_level_ok).
  apply mem_true in Hm as [base Hbase].
  rewrite (getitem_Some _ _ _ Hbase), bind_inr.
  exists by_level, base. repeat split; try assumption.
  eapply row_ordered; eauto.
Qed.

(** ** The blend *)

Lemma growth_factor_nonneg role_key : 0 <= growth_factor role_key.
Proof.
  unfold growth_factor. simpl.
  apply Qle_trans with (0 * 0); [lra|].
  generalize (1.0 + get CAGR_BY_ROLE role_key 0.05). intros q.
  destruct (Qlt_le_dec q 0); nra.
Qed.

Lemma geo_of_nonneg state : 0 <= geo_of state.
Proof.
  unfold geo_of.
  destruct (get_cases GEO_MULTIPLIER (PyStr.upper (PyStr.strip state)) 1.00)
    as [H| ->]; [|lra].
  apply Qle_bool_iff.
  now apply (values_forallb (Qle_bool 0) GEO_MULTIPLIER).
Qed.

Lemma blend_ok role_key level base skills state years weights
    w_sk w_geo w_reg :
  lookup weights "skills" = Some w_sk ->
  lookup weights "geo" = Some w_geo ->
  lookup weights "regression" = Some w_reg ->
  exists b,
    blend role_key level base skills state years weights = inr b
    /\ blend_facts b role_key level base skills state years w_sk w_geo w_reg.
Proof.
  intros Hs Hg Hr. destruct base as [base_low base_high].
  unfold blend.
  change (apply_cagr (inject_Z base_low) (inject_Z base_high) role_key 2)
    with (inr (B := Q * Q) (A := PyError)
            (inject_Z base_low * growth_factor role_key,
             inject_Z base_high * growth_factor role_key)).
  rewrite bind_inr. cbv beta iota zeta delta [apply_inflation].
  rewrite compute_geo_multiplier_eq, bind_inr.
  rewrite (getitem_Some _ _ _ Hs), bind_inr.
  rewrite (getitem_Some _ _ _ Hg), bind_inr.
  rewrite (getitem_Some _ _ _ Hr), bind_inr.
  eexists. split; [reflexivity|].
  constructor; reflexivity.
Qed.

(** ** The whole engine *)

Lemma or_else_role text role_key :
  is_role_key role_key = true ->
  is_role_key (or_else (ext_role_key (extract_from_text text)) role_key) = true
  /\ or_else (ext_role_key (extract_from_text text)) role_key
     = match ext_role_key (extract_from_text text) with
       | Some found => found
       | None => role_key
       end.
Proof.
  intros Hk. unfold or_else.
  destruct (ext_role_key (extract_from_text text)) as [v|] eqn:H; [|now split].
  apply extract_role_key in H as [Hv ->]. now split.
Qed.

Lemma or_else_level text level :
  is_level level = true ->
  is_level (or_else (ext_level (extract_from_text text)) level) = true
  /\ or_else (ext_level (extract_from_text text)) level
     = match ext_level (extract_from_text text) with
       | Some found => found
       | None => level
       end.
Proof.
  intros Hk. unfold or_else.
  destruct (ext_level (extract_from_text text)) as [v|] eqn:H; [|now split].
  apply extract_level in H as [Hv ->]. now split.
Qed.

Lemma enrich_total inp :
  exists caller_role caller_level,
    normalize_role (role inp) = inr caller_role
    /\ normalize_level (level inp) = inr caller_level
    /\ enrich inp = inr (enriched inp caller_role caller_level)
    /\ is_role_key (fst (fst (enriched inp caller_role caller_level))) = true
    /\ is_level (snd (fst (enriched inp caller_role caller_level))) = true.
Proof.
  destruct (normalize_role_total (role inp)) as (rk & Hrk & Hrk_ok).
  destruct (normalize_level_total (level inp)) as (lv & Hlv & Hlv_ok).
  exists rk, lv. unfold enrich, enriched.
  rewrite Hrk, Hlv, !bind_inr.
  destruct (described (job_description inp)) as [text|]; cbv zeta.
  - destruct (or_else_role text rk Hrk_ok) as [Hr1 Hr2].
    destruct (or_else_level text lv Hlv_ok) as [Hl1 Hl2].
    rewrite <- Hr2, <- Hl2. cbn [fst snd].
    repeat split; solve [reflexivity | assumption].
  - cbn [fst snd]. repeat split; solve [reflexivity | assumption].
Qed.

Lemma guarded_role_id role_key :
  is_role_key role_key = true -> guarded_role role_key = role_key.
Proof. unfold guarded_role. now intros ->. Qed.

Lemma guarded_level_id level :
  is_level level = true -> guarded_level level = level.
Proof. unfold guarded_level. now intros ->. Qed.

(** [predict_2026] returns, and what it returns is the blend over the
    enriched role, level and skills and their baseline row. *)
Lemma predict_2026_ok inp weights w_sk w_geo w_reg :
  lookup (effective_weights weights) "skills" = Some w_sk ->
  lookup (effective_weights weights) "geo" = Some w_geo ->
  lookup (effective_weights weights) "regression" = Some w_reg ->
  exists caller_role caller_level by_level base b,
    normalize_role (role inp) = inr caller_role
    /\ normalize_level (level inp) = inr caller_level
    /\ let '(role_key, level, skills) :=
         enriched inp caller_role caller_level in
       lookup BASELINES_2024 role_key = Some by_level
       /\ lookup by_level level = Some base
       /\ (fst base <= snd base)%Z
       /\ predict_2026 inp weights = inr b
       /\ blend_facts b role_key level base skills (state inp)
            (years_experience inp) w_sk w_geo w_reg.
Proof.
  intros Hs Hg Hr.
  destruct (enrich_total inp) as (rk & lv & Hrk & Hlv & Hen & Hrk_ok & Hlv_ok).
  assert (Hp : forall role_key level skills base b,
             enriched inp rk lv = (role_key, level, skills) ->
             baseline_for role_key level = inr (role_key, level, base) ->
             blend role_key level base skills (state inp)
               (years_experience inp) (effective_weights weights) = inr b ->
             predict_2026 inp weights = inr b).
  { intros role_key level skills base b He Hbase Hb.
    unfold predict_2026. rewrite Hen, He, bind_inr, Hbase, bind_inr.
    exact Hb. }
  destruct (enriched inp rk lv) as [[role_key level] skills] eqn:He.
  cbn [fst snd] in Hrk_ok, Hlv_ok.
  destruct (baseline_for_total role_key level)
    as (by_level & base & Hbase & Hrow & Hpair & Hord).
  rewrite (guarded_role_id _ Hrk_ok) in Hbase, Hrow.
  rewrite (guarded_level_id _ Hlv_ok) in Hbase, Hpair.
  destruct (blend_ok role_key level base skills (state inp)
              (years_experience inp) _ _ _ _ Hs Hg Hr) as (b & Hb & Hfacts).
  exists rk, lv, by_level, base, b.
  split; [exact Hrk|]. split; [exact Hlv|]. rewrite He.
  split; [exact Hrow|]. split; [exact Hpair|]. split; [exact Hord|].
  split; [|exact Hfacts].
  now apply (Hp role_key level skills base b).
Qed.

(** *** Order of the blended bounds *)

Lemma blended_factor a s g r w_sk w_geo w_reg :
  blended a s g r w_sk w_geo w_reg == a * blended 1 s g r w_sk w_geo w_reg.
Proof. unfold blended, lerp. ring. Qed.

Lemma lerp_nonneg x y w : 0 <= w <= 1 -> 0 <= x -> 0 <= y -> 0 <= lerp x y w.
Proof.
  intros [H0 H1] Hx Hy. unfold lerp.
  assert (0 <= (1 - w) * x) by (apply Qmult_le_0_compat; lra).
  assert (0 <= w * y) by (apply Qmult_le_0_compat; lra).
  lra.
Qed.

Lemma blended_unit_nonneg s g r w_sk w_geo w_reg :
  0 <= s -> 0 <= g -> 0 <= r ->
  0 <= w_sk <= 1 -> 0 <= w_geo <= 1 -> 0 <= w_reg <= 1 ->
  0 <= blended 1 s g r w_sk w_geo w_reg.
Proof.
  intros Hs Hg Hr Hws Hwg Hwr. unfold blended.
  assert (0 <= 1 * s) by lra.
  assert (0 <= 1 * s * g) by (apply Qmult_le_0_compat; lra).
  assert (0 <= 1 * s * g * r) by (apply Qmult_le_0_compat; lra).
  repeat apply lerp_nonneg; trivial; lra.
Qed.

Lemma blended_le a_low a_high s g r w_sk w_geo w_reg :
  a_low <= a_high ->
  0 <= s -> 0 <= g -> 0 <= r ->
  0 <= w_sk <= 1 -> 0 <= w_geo <= 1 -> 0 <= w_reg <= 1 ->
  blended a_low s g r w_sk w_geo w_reg
  <= blended a_high s g r w_sk w_geo w_reg.
Proof.
  intros Ha Hs Hg Hr Hws Hwg Hwr.
  rewrite (blended_factor a_low), (blended_factor a_high).
  apply Qmult_le_compat_r; [exact Ha|].
  now apply blended_unit_nonneg.
Qed.

(** The post-inflation pair is ordered as the baseline pair is. *)
Lemma inflation_ordered b role_key level base skills state years
    w_sk w_geo w_reg :
  blend_facts b role_key level base skills state years w_sk w_geo w_reg ->
  (fst base <= snd base)%Z ->
  baseline_low b <= baseline_high b /\ inflation_low b <= inflation_high b.
Proof.
  intros F Hord.
  assert (Hb : baseline_low b <= baseline_high b).
  { rewrite (bf_base_low _ _ _ _ _ _ _ _ _ _ F).
    rewrite (bf_base_high _ _ _ _ _ _ _ _ _ _ F).
    now rewrite <- Zle_Qle. }
  split; [exact Hb|].
  rewrite (bf_infl_low _ _ _ _ _ _ _ _ _ _ F).
  rewrite (bf_infl_high _ _ _ _ _ _ _ _ _ _ F).
  rewrite (bf_cagr_low _ _ _ _ _ _ _ _ _ _ F).
  rewrite (bf_cagr_high _ _ _ _ _ _ _ _ _ _ F).
  pose proof (growth_factor_nonneg role_key) as Hf.
  apply Qmult_le_compat_r; [|unfold INFLATION_2024_TO_2026; lra].
  now apply Qmult_le_compat_r.
Qed.

Lemma blend_facts_ordered b role_key level base skills state years
    w_sk w_geo w_reg :
  blend_facts b role_key level base skills state years w_sk w_geo w_reg ->
  inflation_low b <= inflation_high b ->
  0 <= w_sk <= 1 -> 0 <= w_geo <= 1 -> 0 <= w_reg <= 1 ->
  final_low b <= final_mid b <= final_high b.
Proof.
  intros F Ha Hws Hwg Hwr.
  assert (H : final_low b <= final_high b).
  { rewrite (bf_low _ _ _ _ _ _ _ _ _ _ F), (bf_high _ _ _ _ _ _ _ _ _ _ F).
    apply blended_le; trivial.
    - rewrite (bf_skills _ _ _ _ _ _ _ _ _ _ F).
      pose proof (compute_skills_multiplier_formula skills) as E.
      pose proof (skills_formula_bounds skills). rewrite E. lra.
    - rewrite (bf_geo _ _ _ _ _ _ _ _ _ _ F). apply geo_of_nonneg.
    - rewrite (bf_reg _ _ _ _ _ _ _ _ _ _ F).
      pose proof (regression_adjustment_bounds role_key level years). lra. }
  rewrite (bf_mid _ _ _ _ _ _ _ _ _ _ F).
  assert (E : (final_low b + final_high b) / 2.0
              == (final_low b + final_high b) * (1 # 2)) by (field).
  rewrite E. lra.
Qed.

Lemma enriched_soc_input :
  enriched soc_input "soc_analyst" "entry"
  = ("soc_analyst", "entry", ["edr"; "security_plus"; "siem"]).
Proof. vm_compute. reflexivity. Qed.

(** ** The claims about [predict_2026] *)

(** C1.  For every input and every weight configuration whose skills,
    geo and regression weights lie in [0, 1], [predict_2026] returns a
    breakdown whose baseline pair is ordered and whose final figures
    satisfy low <= mid <= high. *)
Theorem predict_2026_ordered
    (inp : PredictionInput) (weights : option (dict Q)) (w_sk w_geo w_reg : Q) :
  lookup (effective_weights weights) "skills" = Some w_sk ->
  lookup (effective_weights weights) "geo" = Some w_geo ->
  lookup (effective_weights weights) "regression" = Some w_reg ->
  0 <= w_sk <= 1 -> 0 <= w_geo <= 1 -> 0 <= w_reg <= 1 ->
  exists b,
    predict_2026 inp weights = inr b
    /\ baseline_low b <= baseline_high b
    /\ final_low b <= final_mid b <= final_high b.
Proof.
  intros Hs Hg Hr Hws Hwg Hwr.
  destruct (predict_2026_ok inp weights _ _ _ Hs Hg Hr)
    as (rk & lv & by_level & base & b & _ & _ & H).
  destruct (enriched inp rk lv) as [[role_key level] skills].
  destruct H as (_ & _ & Hord & Hb & F).
  destruct (inflation_ordered _ _ _ _ _ _ _ _ _ _ F Hord) as [Hbase Hinfl].
  exists b. split; [exact Hb|]. split; [exact Hbase|].
  exact (blend_facts_ordered _ _ _ _ _ _ _ _ _ _ F Hinfl Hws Hwg Hwr).
Qed.

Lemma predict_2026_ordered_witness :
  exists b,
    predict_2026 soc_input None = inr b
    /\ baseline_low b <= baseline_high b
    /\ final_low b <= final_mid b <= final_high b.
Proof.
  apply (predict_2026_ordered soc_input None 0.20 0.20 0.20);
    try reflexivity; split; discriminate.
Defined.

(** C3.  With the three weights at 0 the final low and high are
    candidate A, the post-growth, post-inflation pair of the baseline
    row the input resolves to; with the three weights at 1 they are
    candidate E, that pair times the skills, geo and regression
    multipliers of the input. *)
Theorem weight_extremes
    (inp : PredictionInput) (weights : option (dict Q)) (w_sk w_geo w_reg : Q) :
  lookup (effective_weights weights) "skills" = Some w_sk ->
  lookup (effective_weights weights) "geo" = Some w_geo ->
  lookup (effective_weights weights) "regression" = Some w_reg ->
  exists caller_role caller_level by_level base a e b,
    normalize_role (role inp) = inr caller_role
    /\ normalize_level (level inp) = inr caller_level
    /\ let '(role_key, level, skills) :=
         enriched inp caller_role caller_level in
       lookup BASELINES_2024 role_key = Some by_level
       /\ lookup by_level level = Some base
       /\ candidate_A base role_key = inr a
       /\ candidate_E base role_key level skills (state inp)
            (years_experience inp) = inr e
       /\ predict_2026 inp weights = inr b
       /\ blend_facts b role_key level base skills (state inp)
            (years_experience inp) w_sk w_geo w_reg
       /\ (w_sk == 0 /\ w_geo == 0 /\ w_reg == 0 ->
           final_low b == fst a /\ final_high b == snd a)
       /\ (w_sk == 1 /\ w_geo == 1 /\ w_reg == 1 ->
           final_low b == fst e /\ final_high b == snd e).
Proof.
  intros Hs Hg Hr.
  destruct (predict_2026_ok inp weights _ _ _ Hs Hg Hr)
    as (rk & lv & by_level & base & b & Hrk & Hlv & H).
  exists rk, lv, by_level, base.
  destruct (enriched inp rk lv) as [[role_key level] skills].
  destruct H as (Hrow & Hbase & _ & Hb & F).
  exists (inject_Z (fst base) * growth_factor role_key
            * INFLATION_2024_TO_2026,
          inject_Z (snd base) * growth_factor role_key
            * INFLATION_2024_TO_2026).
  exists (inject_Z (fst base) * growth_factor role_key
            * INFLATION_2024_TO_2026
            * compute_skills_multiplier skills * geo_of (state inp)
            * regression_adjustment role_key level (years_experience inp),
          inject_Z (snd base) * growth_factor role_key
            * INFLATION_2024_TO_2026
            * compute_skills_multiplier skills * geo_of (state inp)
            * regression_adjustment role_key level (years_experience inp)).
  exists b.
  split; [exact Hrk|]. split; [exact Hlv|].
  split; [exact Hrow|]. split; [exact Hbase|].
  split; [reflexivity|]. split; [reflexivity|].
  split; [exact Hb|]. split; [exact F|].
  cbn [fst snd].
  rewrite (bf_low _ _ _ _ _ _ _ _ _ _ F), (bf_high _ _ _ _ _ _ _ _ _ _ F).
  rewrite (bf_infl_low _ _ _ _ _ _ _ _ _ _ F).
  rewrite (bf_infl_high _ _ _ _ _ _ _ _ _ _ F).
  rewrite (bf_cagr_low _ _ _ _ _ _ _ _ _ _ F).
  rewrite (bf_cagr_high _ _ _ _ _ _ _ _ _ _ F).
  rewrite (bf_base_low _ _ _ _ _ _ _ _ _ _ F).
  rewrite (bf_base_high _ _ _ _ _ _ _ _ _ _ F).
  rewrite (bf_skills _ _ _ _ _ _ _ _ _ _ F).
  rewrite (bf_geo _ _ _ _ _ _ _ _ _ _ F).
  rewrite (bf_reg _ _ _ _ _ _ _ _ _ _ F).
  unfold blended, lerp.
  split; intros (E1 & E2 & E3); rewrite E1, E2, E3; split; ring.
Qed.

Lemma weight_extremes_witness :
  (exists b,
     predict_2026 soc_input (Some (all_weights 0)) = inr b
     /\ final_low b == 82577.25 /\ final_high b == 112069.125)
  /\ (exists b,
        predict_2026 soc_input (Some (all_weights 1)) = inr b
        /\ final_low b == 82577.25 * 1.0595
        /\ final_high b == 112069.125 * 1.0595).
Proof.
  split.
  - destruct (weight_extremes soc_input (Some (all_weights 0)) 0 0 0
                eq_refl eq_refl eq_refl)
      as (rk & lv & by_level & base & a & e & b & Hrk & Hlv & H).
    injection Hrk as <-. injection Hlv as <-.
    rewrite enriched_soc_input in H.
    destruct H as (Hrow & Hbase & Ha & _ & Hb & _ & Hzero & _).
    injection Hrow as <-. injection Hbase as <-. injection Ha as <-.
    exists b. split; [exact Hb|].
    destruct Hzero as [Hl Hh]; [repeat split|].
    split; [rewrite Hl | rewrite Hh]; reflexivity.
  - destruct (weight_extremes soc_input (Some (all_weights 1)) 1 1 1
                eq_refl eq_refl eq_refl)
      as (rk & lv & by_level & base & a & e & b & Hrk & Hlv & H).
    injection Hrk as <-. injection Hlv as <-.
    rewrite enriched_soc_input in H.
    destruct H as (Hrow & Hbase & _ & He & Hb & _ & _ & Hone).
    injection Hrow as <-. injection Hbase as <-. injection He as <-.
    exists b. split; [exact Hb|].
    destruct Hone as [Hl Hh]; [repeat split|].
    split; [rewrite Hl | rewrite Hh]; reflexivity.
Defined.

(** C4.  With the default weights [predict_2026] returns a breakdown for
    every input; the subscripts into the baseline table cannot raise,
    whatever role key and level reach the two guards. *)
Theorem predict_2026_total (inp : PredictionInput) :
  (exists b, predict_2026 inp None = inr b)
  /\ (forall role_key level, exists row,
        baseline_for role_key level = inr row).
Proof.
  split.
  - destruct (predict_2026_ok inp None 0.20 0.20 0.20
                eq_refl eq_refl eq_refl)
      as (rk & lv & by_level & base & b & _ & _ & H).
    destruct (enriched inp rk lv) as [[role_key level] skills].
    destruct H as (_ & _ & _ & Hb & _). now exists b.
  - intros role_key level.
    destruct (baseline_for_total role_key level) as (_ & base & H & _).
    eexists. exact H.
Qed.

(** C7.  With a non-empty job description, the role key and the level
    that index the tables are the extractor's when it found one and the
    caller's normalized ones otherwise, and the skills premium is taken
    over the duplicate-free union of the caller's and the extracted
    skills. *)
Theorem description_takes_priority
    (inp : PredictionInput) (text : string) (weights : option (dict Q))
    (w_sk w_geo w_reg : Q) :
  job_description inp = Some text -> text <> "" ->
  lookup (effective_weights weights) "skills" = Some w_sk ->
  lookup (effective_weights weights) "geo" = Some w_geo ->
  lookup (effective_weights weights) "regression" = Some w_reg ->
  exists caller_role caller_level by_level base b,
    normalize_role (role inp) = inr caller_role
    /\ normalize_level (level inp) = inr caller_level
    /\ let ext := extract_from_text text in
       let used_role :=
         match ext_role_key ext with
         | Some found => found
         | None => caller_role
         end in
       let used_level :=
         match ext_level ext with
         | Some found => found
         | None => caller_level
         end in
       let used_skills :=
         PyStr.sorted (PyStr.set (skills inp ++ ext_skills ext)) in
       enrich inp = inr (used_role, used_level, used_skills)
       /\ lookup BASELINES_2024 used_role = Some by_level
       /\ lookup by_level used_level = Some base
       /\ predict_2026 inp weights = inr b
       /\ blend_facts b used_role used_level base used_skills (state inp)
            (years_experience inp) w_sk w_geo w_reg
       /\ skills_multiplier b = compute_skills_multiplier used_skills
       /\ NoDup used_skills
       /\ Sorted str_le used_skills
       /\ forall x, In x used_skills
                    <-> In x (skills inp) \/ In x (ext_skills ext).
Proof.
  intros Hd Hne Hs Hg Hr.
  assert (Hdesc : described (job_description inp) = Some text).
  { rewrite Hd. destruct text; [congruence | reflexivity]. }
  destruct (predict_2026_ok inp weights _ _ _ Hs Hg Hr)
    as (rk & lv & by_level & base & b & Hrk & Hlv & H).
  destruct (enrich_total inp) as (rk' & lv' & Hrk' & Hlv' & Hen & _).
  assert (rk' = rk) by congruence. assert (lv' = lv) by congruence.
  subst rk' lv'. unfold enriched in H, Hen. rewrite Hdesc in H, Hen.
  cbv zeta in H, Hen. destruct H as (Hrow & Hpair & _ & Hb & F).
  exists rk, lv, by_level, base, b.
  split; [exact Hrk|]. split; [exact Hlv|]. cbv zeta.
  split; [exact Hen|]. split; [exact Hrow|]. split; [exact Hpair|].
  split; [exact Hb|]. split; [exact F|].
  split; [exact (bf_skills _ _ _ _ _ _ _ _ _ _ F)|].
  split; [apply sorted_set_NoDup|].
  split; [apply sorted_Sorted|].
  intros x. rewrite sorted_set_In. apply in_app_iff.
Qed.

Lemma description_takes_priority_witness :
  exists caller_role caller_level b,
    normalize_role (role soc_input) = inr caller_role
    /\ normalize_level (level soc_input) = inr caller_level
    /\ enrich soc_input
       = inr ("soc_analyst", "entry", ["edr"; "security_plus"; "siem"])
    /\ predict_2026 soc_input None = inr b
    /\ skills_multiplier b
       = compute_skills_multiplier ["edr"; "security_plus"; "siem"].
Proof.
  destruct (description_takes_priority soc_input soc_description None
              0.20 0.20 0.20 eq_refl)
    as (rk & lv & by_level & base & b & Hrk & Hlv & H);
    [discriminate | reflexivity | reflexivity | reflexivity |].
  cbv zeta in H. rewrite extract_soc_description in H. cbn [ext_role_key ext_level ext_skills] in H.
  destruct H as (Hen & _ & _ & Hb & _ & Hsk & _).
  exists rk, lv, b.
  split; [exact Hrk|]. split; [exact Hlv|].
  split; [rewrite Hen; vm_compute; reflexivity|].
  split; [exact Hb|].
  rewrite Hsk. vm_compute. reflexivity.
Defined.

(** C10.  Without a job description the caller's skills reach
    [compute_skills_multiplier] as they are, each occurrence of a token
    adding its premium: the list with [siem] twice stays under the cap
    and gets a strictly larger multiplier than its duplicate-free
    form. *)
Theorem duplicate_skills_count_twice :
  (forall role level years state skills,
      exists b,
        predict_2026 {| role := role; level := level;
                        years_experience := years; state := state;
                        skills := skills; job_description := None |} None
        = inr b
        /\ skills_multiplier b = compute_skills_multiplier skills)
  /\ exists b_twice b_once,
       predict_2026 (plain_input ["siem"; "siem"]) None = inr b_twice
       /\ predict_2026 (plain_input (PyStr.set ["siem"; "siem"])) None
          = inr b_once
       /\ PyStr.set ["siem"; "siem"] = ["siem"]
       /\ premium_sum ["siem"; "siem"] < 0.25
       /\ skills_multiplier b_twice == 1 + 0.85 * (2 * premium_of "siem")
       /\ skills_multiplier b_once == 1 + 0.85 * premium_of "siem"
       /\ skills_multiplier b_once < skills_multiplier b_twice.
Proof.
  split.
  - intros role level years state skills.
    destruct (predict_2026_ok
                {| role := role; level := level; years_experience := years;
                   state := state; skills := skills;
                   job_description := None |} None 0.20 0.20 0.20
                eq_refl eq_refl eq_refl)
      as (rk & lv & by_level & base & b & _ & _ & H).
    unfold enriched in H. cbn [job_description described] in H.
    destruct H as (_ & _ & _ & Hb & F).
    exists b. split; [exact Hb|].
    exact (bf_skills _ _ _ _ _ _ _ _ _ _ F).
  - eexists. eexists.
    split; [vm_compute; reflexivity|].
    split; [vm_compute; reflexivity|].
    cbn [skills_multiplier].
    repeat split; vm_compute; reflexivity.
Qed.


(** The demo of [main.py] runs to the end on its three inputs, and on
    the second one the extractor's first alias hit, [security engineer],
    replaces the caller's cloud role. *)
Example demo_runs :
  map (fun inp => match predict_2026 inp None with
                  | inr b => Some (baseline_low b, baseline_high b)
                  | inl _ => None
                  end) demo_inputs
  = [ Some (inject_Z 120000, inject_Z 160000);
      Some (inject_Z 160000, inject_Z 210000);
      Some (inject_Z 70000, inject_Z 95000) ].
Proof. vm_compute. reflexivity. Qed.

(** ** Facts about the string primitives *)

Lemma map_chars_app f a b :
  PyStr.map_chars f (a ++ b) = PyStr.map_chars f a ++ PyStr.map_chars f b.
Proof.
  induction a as [|c a IH]; simpl; [reflexivity | now rewrite IH].
Qed.

Lemma map_chars_compose f g h s :
  (forall c, f (g c) = h c) ->
  PyStr.map_chars f (PyStr.map_chars g s) = PyStr.map_chars h s.
Proof.
  intros H. induction s as [|c s IH]; simpl; [reflexivity|].
  now rewrite H, IH.
Qed.

Ltac by_cases_on_char c :=
  destruct c as [[] [] [] [] [] [] [] []]; reflexivity.

Lemma lower_upper_char c :
  PyStr.lower_char (PyStr.upper_char c) = PyStr.lower_char c.
Proof. by_cases_on_char c. Qed.

Lemma upper_lower_char c :
  PyStr.upper_char (PyStr.lower_char c) = PyStr.upper_char c.
Proof. by_cases_on_char c. Qed.

Lemma lower_lower_char c :
  PyStr.lower_char (PyStr.lower_char c) = PyStr.lower_char c.
Proof. by_cases_on_char c. Qed.

Lemma upper_upper_char c :
  PyStr.upper_char (PyStr.upper_char c) = PyStr.upper_char c.
Proof. by_cases_on_char c. Qed.

Lemma is_space_lower_char c :
  PyStr.is_space (PyStr.lower_char c) = PyStr.is_space c.
Proof. by_cases_on_char c. Qed.

Lemma is_space_upper_char c :
  PyStr.is_space (PyStr.upper_char c) = PyStr.is_space c.
Proof. by_cases_on_char c. Qed.

Section StripMap.
Variable f : ascii -> ascii.
Hypothesis f_space : forall c, PyStr.is_space (f c) = PyStr.is_space c.

Lemma lstrip_map s :
  PyStr.lstrip (PyStr.map_chars f s) = PyStr.map_chars f (PyStr.lstrip s).
Proof.
  induction s as [|c s IH]; simpl; [reflexivity|].
  rewrite f_space. now destruct (PyStr.is_space c).
Qed.

Lemma rstrip_map s :
  PyStr.rstrip (PyStr.map_chars f s) = PyStr.map_chars f (PyStr.rstrip s).
Proof.
  induction s as [|c s IH]; simpl; [reflexivity|].
  rewrite IH. destruct (PyStr.rstrip s); simpl; [|reflexivity].
  rewrite f_space. now destruct (PyStr.is_space c).
Qed.

Lemma strip_map s :
  PyStr.strip (PyStr.map_chars f s) = PyStr.map_chars f (PyStr.strip s).
Proof. unfold PyStr.strip. now rewrite lstrip_map, rstrip_map. Qed.
End StripMap.

(** The key the normalizer looks up, [s.strip().lower()], does not see
    the case of [s]. *)
Lemma lower_key_upper s :
  PyStr.lower (PyStr.strip (PyStr.upper s)) = PyStr.lower (PyStr.strip s).
Proof.
  unfold PyStr.upper. rewrite (strip_map _ is_space_upper_char).
  apply map_chars_compose, lower_upper_char.
Qed.

Lemma lower_key_lower s :
  PyStr.lower (PyStr.strip (PyStr.lower s)) = PyStr.lower (PyStr.strip s).
Proof.
  unfold PyStr.lower. rewrite (strip_map _ is_space_lower_char).
  apply map_chars_compose, lower_lower_char.
Qed.

Lemma upper_key_upper s :
  PyStr.upper (PyStr.strip (PyStr.upper s)) = PyStr.upper (PyStr.strip s).
Proof.
  unfold PyStr.upper. rewrite (strip_map _ is_space_upper_char).
  apply map_chars_compose, upper_upper_char.
Qed.

Lemma upper_key_lower s :
  PyStr.upper (PyStr.strip (PyStr.lower s)) = PyStr.upper (PyStr.strip s).
Proof.
  unfold PyStr.lower. rewrite (strip_map _ is_space_lower_char).
  apply map_chars_compose, upper_lower_char.
Qed.

Lemma lower_upper s : PyStr.lower (PyStr.upper s) = PyStr.lower s.
Proof. apply map_chars_compose, lower_upper_char. Qed.

Lemma lower_lower s : PyStr.lower (PyStr.lower s) = PyStr.lower s.
Proof. apply map_chars_compose, lower_lower_char. Qed.

(** *** Surrounding whitespace *)

Lemma lstrip_blank ws s : blank ws = true -> PyStr.lstrip (ws ++ s) = PyStr.lstrip s.
Proof.
  induction ws as [|c ws IH]; simpl; [reflexivity|].
  intros H. apply andb_true_iff in H as [-> H]. now apply IH.
Qed.

Lemma rstrip_blank ws : blank ws = true -> PyStr.rstrip ws = "".
Proof.
  induction ws as [|c ws IH]; simpl; [reflexivity|].
  intros H. apply andb_true_iff in H as [-> H]. now rewrite IH.
Qed.

Lemma rstrip_app_blank s ws :
  blank ws = true -> PyStr.rstrip (s ++ ws) = PyStr.rstrip s.
Proof.
  intros H. induction s as [|c s IH]; simpl.
  - now apply rstrip_blank.
  - now rewrite IH.
Qed.

Lemma lstrip_all_blank ws : blank ws = true -> PyStr.lstrip ws = "".
Proof.
  induction ws as [|c ws IH]; simpl; [reflexivity|].
  intros H. apply andb_true_iff in H as [-> H]. now apply IH.
Qed.

Lemma lstrip_app_blank s ws :
  blank ws = true ->
  PyStr.rstrip (PyStr.lstrip (s ++ ws)) = PyStr.rstrip (PyStr.lstrip s).
Proof.
  intros H. induction s as [|c s IH]; simpl.
  - now rewrite (lstrip_all_blank ws H).
  - destruct (PyStr.is_space c); [exact IH|].
    now apply (rstrip_app_blank (String c s)).
Qed.

Lemma strip_padding before s after :
  blank before = true -> blank after = true ->
  PyStr.strip (before ++ s ++ after) = PyStr.strip s.
Proof.
  intros Hb Ha. unfold PyStr.strip.
  rewrite (lstrip_blank _ _ Hb). now apply lstrip_app_blank.
Qed.

(** *** Substrings *)

Lemma append_assoc3 (a b c : string) : (a ++ b) ++ c = a ++ (b ++ c).
Proof.
  induction a as [|x a IH]; simpl; [reflexivity | now rewrite IH].
Qed.

Lemma prefix_spec k t :
  String.prefix k t = true <-> exists rest, t = k ++ rest.
Proof.
  revert t. induction k as [|a k IH]; intros t.
  - split; [intros _; now exists t | now destruct t].
  - destruct t as [|b t]; simpl.
    + split; [discriminate | intros [rest H]; discriminate].
    + destruct (ascii_dec a b) as [->|Hne].
      * rewrite IH. split; intros [rest H]; exists rest.
        -- now rewrite H.
        -- now injection H.
      * split; [discriminate|]. intros [rest H]. injection H. congruence.
Qed.

Lemma contains_nil k : PyStr.contains k "" = String.prefix k "" || false.
Proof. reflexivity. Qed.

Lemma contains_cons k c t :
  PyStr.contains k (String c t)
  = String.prefix k (String c t) || PyStr.contains k t.
Proof. reflexivity. Qed.

Lemma contains_spec k t :
  PyStr.contains k t = true <-> exists before after, t = before ++ k ++ after.
Proof.
  split.
  - induction t as [|c t IH];
      [rewrite contains_nil | rewrite contains_cons]; rewrite orb_true_iff.
    + intros [H|H]; [|discriminate].
      apply prefix_spec in H as [rest H]. now exists "", rest.
    + intros [H|H].
      * apply prefix_spec in H as [rest H]. now exists "", rest.
      * destruct (IH H) as (before & after & ->).
        now exists (String c before), after.
  - intros (before & after & ->).
    induction before as [|c before IH].
    + assert (H : String.prefix k (k ++ after) = true)
        by (apply prefix_spec; now exists after).
      change ("" ++ k ++ after) with (k ++ after).
      destruct (k ++ after);
        [rewrite contains_nil | rewrite contains_cons]; now rewrite H.
    + change (String c before ++ k ++ after)
        with (String c (before ++ k ++ after)).
      rewrite contains_cons, IH. apply orb_true_r.
Qed.

Lemma contains_trans k m t :
  PyStr.contains k m = true -> PyStr.contains m t = true ->
  PyStr.contains k t = true.
Proof.
  rewrite !contains_spec.
  intros (a & b & ->) (a' & b' & ->).
  exists (a' ++ a), (b ++ b'). now rewrite !append_assoc3.
Qed.

Lemma contains_extend k t before after :
  PyStr.contains k t = true ->
  PyStr.contains k (before ++ t ++ after) = true.
Proof.
  rewrite !contains_spec. intros (a & b & ->).
  exists (before ++ a), (b ++ after). now rewrite !append_assoc3.
Qed.

(** ** Letter case and padding of the free-text inputs *)

Lemma extract_from_text_lowered text :
  extract_from_text text = extract_from_text (PyStr.lower text).
Proof. unfold extract_from_text. now rewrite lower_lower. Qed.

(** X1.  Letter case is irrelevant to the four entry points that read
    free text: upper-casing or lower-casing a role, a level, a location
    code or a job description changes nothing of the result. *)
Theorem inputs_ignore_case (s : string) :
  (normalize_role (PyStr.upper s) = normalize_role s
   /\ normalize_role (PyStr.lower s) = normalize_role s)
  /\ (normalize_level (PyStr.upper s) = normalize_level s
      /\ normalize_level (PyStr.lower s) = normalize_level s)
  /\ (compute_geo_multiplier (PyStr.upper s) = compute_geo_multiplier s
      /\ compute_geo_multiplier (PyStr.lower s) = compute_geo_multiplier s)
  /\ (extract_from_text (PyStr.upper s) = extract_from_text s
      /\ extract_from_text (PyStr.lower s) = extract_from_text s).
Proof.
  repeat split.
  - unfold normalize_role. now rewrite lower_key_upper.
  - unfold normalize_role. now rewrite lower_key_lower.
  - unfold normalize_level. now rewrite lower_key_upper.
  - unfold normalize_level. now rewrite lower_key_lower.
  - unfold compute_geo_multiplier. now rewrite upper_key_upper.
  - unfold compute_geo_multiplier. now rewrite upper_key_lower.
  - unfold extract_from_text. now rewrite lower_upper.
  - unfold extract_from_text. now rewrite lower_lower.
Qed.

(** X2.  Whitespace around a role, a level or a location code is
    irrelevant: padding the string on either side with blanks, tabs or
    line breaks changes nothing of the result. *)
Theorem inputs_ignore_padding (before s after : string) :
  blank before = true -> blank after = true ->
  normalize_role (before ++ s ++ after) = normalize_role s
  /\ normalize_level (before ++ s ++ after) = normalize_level s
  /\ compute_geo_multiplier (before ++ s ++ after) = compute_geo_multiplier s.
Proof.
  intros Hb Ha. repeat split.
  - unfold normalize_role. now rewrite strip_padding.
  - unfold normalize_level. now rewrite strip_padding.
  - unfold compute_geo_multiplier. now rewrite strip_padding.
Qed.

Lemma inputs_ignore_padding_witness :
  normalize_role (padding ++ "SOC Analyst" ++ padding)
  = normalize_role "SOC Analyst"
  /\ normalize_level (padding ++ "SOC Analyst" ++ padding)
     = normalize_level "SOC Analyst"
  /\ compute_geo_multiplier (padding ++ "SOC Analyst" ++ padding)
     = compute_geo_multiplier "SOC Analyst".
Proof.
  apply (inputs_ignore_padding padding "SOC Analyst" padding); reflexivity.
Defined.

(** ** Which alias wins *)

Ltac scan_aliases t :=
  repeat match goal with
         | |- context [if PyStr.contains ?k t then _ else _] =>
             let H := fresh "Hit" in
             destruct (PyStr.contains k t) eqn:H;
             [cbn [option_map snd]; try discriminate|]
         end.

(** [security engineer] is the first alias in insertion order, so it wins
    wherever it occurs. *)
Lemma role_hit_security_engineer t :
  PyStr.contains "security engineer" t = true ->
  role_hit t = Some "cybersecurity_engineer".
Proof.
  intros H. unfold role_hit, first_hit, ROLE_ALIASES. cbn [find fst].
  now rewrite H.
Qed.

Lemma role_hit_never_cloud t : role_hit t <> Some "cloud_security_engineer".
Proof.
  unfold role_hit, first_hit, ROLE_ALIASES. cbn [find fst].
  scan_aliases t; try discriminate.
  exfalso.
  match goal with
  | Hc : PyStr.contains "cloud security engineer" t = true,
    Hs : PyStr.contains "security engineer" t = false |- _ =>
      rewrite (contains_trans "security engineer" "cloud security engineer"
                 t eq_refl Hc) in Hs;
      discriminate Hs
  end.
Qed.



Lemma lookup_role_alias_cloud r :
  lookup ROLE_ALIASES r = Some "cloud_security_engineer" ->
  r = "cloud security engineer".
Proof.
  unfold ROLE_ALIASES, lookup.
  repeat match goal with
         | |- context [String.eqb r ?k] =>
             destruct (String.eqb_spec r k) as [->|?];
             [intros H; try discriminate H; reflexivity|]
         end.
  discriminate.
Qed.

(** X4.  [normalize_role] answers [cloud_security_engineer] only for the
    exact alias [cloud security engineer] or for a string that is the
    key once its spaces are underscores; a role title that contains
    [security engineer] and is no alias itself is sent to
    [cybersecurity_engineer]. *)
Theorem normalize_role_cloud_only_exact (role : string) :
  let r := PyStr.lower (PyStr.strip role) in
  (normalize_role role = inr "cloud_security_engineer" ->
   r = "cloud security engineer"
   \/ PyStr.replace " " "_" r = "cloud_security_engineer")
  /\ (PyStr.contains "security engineer" r = true ->
      ~ In r (keys ROLE_ALIASES) ->
      normalize_role role = inr "cybersecurity_engineer").
Proof.
  cbv zeta. unfold normalize_role.
  generalize (PyStr.lower (PyStr.strip role)). intros r. split.
  - destruct (mem r ROLE_ALIASES) eqn:Hm.
    + apply mem_true in Hm as [v Hv]. rewrite (getitem_Some _ _ _ Hv).
      intros [= ->]. left. now apply lookup_role_alias_cloud.
    + fold (role_hit r). destruct (role_hit r) as [v|] eqn:Hh.
      * intros [= ->]. now destruct (role_hit_never_cloud r).
      * destruct (mem (PyStr.replace " " "_" r) BASELINES_2024).
        -- intros [= ->]. now right.
        -- discriminate.
  - intros Hc Hn. rewrite (not_in_keys_mem _ _ Hn).
    fold (role_hit r). now rewrite (role_hit_security_engineer r Hc).
Qed.

Lemma normalize_role_cloud_only_exact_witness :
  normalize_role "Senior Cloud Security Engineer"
  = inr "cybersecurity_engineer"
  /\ normalize_role " Cloud Security_Engineer "
     = inr "cloud_security_engineer".
Proof.
  split.
  - apply (proj2 (normalize_role_cloud_only_exact
                    "Senior Cloud Security Engineer")).
    + reflexivity.
    + apply mem_false_keys. reflexivity.
  - destruct (proj1 (normalize_role_cloud_only_exact
                       " Cloud Security_Engineer ") eq_refl) as [H|H].
    + discriminate H.
    + reflexivity.
Defined.

(** ** What the extractor returns *)

Lemma in_keys_mem {V} (d : dict V) k : mem k d = true -> In k (keys d).
Proof. intros H. apply mem_true in H as [v Hv]. eapply lookup_keys; eauto. Qed.

Lemma keys_premium_positive k :
  In k (keys SKILL_PREMIUM) -> 0 < premium_of k.
Proof.
  intros H.
  assert (Hall : forallb (fun k => match Qlt_le_dec 0 (premium_of k) with
                                   | left _ => true
                                   | right _ => false
                                   end) (keys SKILL_PREMIUM) = true)
    by (vm_compute; reflexivity).
  apply (proj1 (forallb_forall _ _) Hall) in H.
  now destruct (Qlt_le_dec 0 (premium_of k)).
Qed.

Lemma normalized_cert_is_key cert :
  In cert CERT_STRINGS ->
  In (if PyStr.contains "security" cert then "security_plus" else cert)
     (keys SKILL_PREMIUM).
Proof.
  intros H. apply in_keys_mem.
  now apply (proj1 (forallb_forall
                      (fun cert =>
                         mem (if PyStr.contains "security" cert
                              then "security_plus" else cert) SKILL_PREMIUM)
                      CERT_STRINGS) eq_refl).
Qed.

Lemma extract_skills_In text x :
  In x (ext_skills (extract_from_text text)) <->
  (In x (keys SKILL_PREMIUM)
   /\ (PyStr.contains (PyStr.replace "_" " " x) (PyStr.lower text)
       || PyStr.contains x (PyStr.lower text)) = true)
  \/ exists cert,
       In cert CERT_STRINGS
       /\ PyStr.contains cert (PyStr.lower text) = true
       /\ x = if PyStr.contains "security" cert then "security_plus" else cert.
Proof.
  unfold extract_from_text. cbn [ext_skills].
  rewrite sorted_set_In, in_app_iff, filter_In, in_map_iff.
  split; (intros [H|H]; [now left | right]).
  - destruct H as (cert & Hx & Hin). apply filter_In in Hin as [Hin Hc].
    exists cert. now repeat split.
  - destruct H as (cert & Hin & Hc & Hx). exists cert.
    split; [now symmetry|]. apply filter_In. now split.
Qed.

(** X5.  Whatever the text, the extractor returns canonical values: the
    skills are sorted, pairwise distinct and all keys of [SKILL_PREMIUM]
    with a positive premium, a found role is a key of [BASELINES_2024]
    and a found level is one of entry, mid, senior. *)
Theorem extract_from_text_canonical (text : string) :
  let ext := extract_from_text text in
  Sorted str_le (ext_skills ext)
  /\ NoDup (ext_skills ext)
  /\ (forall x, In x (ext_skills ext) ->
        In x (keys SKILL_PREMIUM) /\ 0 < premium_of x)
  /\ (forall k, ext_role_key ext = Some k -> In k (keys BASELINES_2024))
  /\ (forall l, ext_level ext = Some l -> In l LEVEL_KEYS).
Proof.
  cbv zeta. split; [apply sorted_Sorted|]. split; [apply sorted_set_NoDup|].
  split; [|split].
  - intros x Hx.
    assert (Hk : In x (keys SKILL_PREMIUM)).
    { apply extract_skills_In in Hx as [[Hk _]|(cert & Hin & _ & ->)];
        [exact Hk | now apply normalized_cert_is_key]. }
    split; [exact Hk | now apply keys_premium_positive].
  - intros k Hk. apply extract_role_key in Hk as [Hk _].
    now apply in_keys_mem.
  - intros l Hl. apply extract_level in Hl as [Hl _].
    unfold is_level in Hl. apply existsb_exists in Hl as (l' & Hin & Heq).
    now apply String.eqb_eq in Heq as ->.
Qed.

Lemma extract_from_text_canonical_witness :
  In "security_plus" (keys SKILL_PREMIUM) /\ 0 < premium_of "security_plus".
Proof.
  destruct (extract_from_text_canonical soc_description) as (_ & _ & H & _).
  apply H. rewrite extract_soc_description. simpl. tauto.
Defined.

Lemma lower_app a b : PyStr.lower (a ++ b) = PyStr.lower a ++ PyStr.lower b.
Proof. apply map_chars_app. Qed.

(** X6.  Text around a description never hides a skill: every skill
    found in [text] is also found in [before ++ text ++ after]. *)
Theorem extract_skills_monotone (before text after x : string) :
  In x (ext_skills (extract_from_text text)) ->
  In x (ext_skills (extract_from_text (before ++ text ++ after))).
Proof.
  rewrite !extract_skills_In, !lower_app.
  intros [[Hk Hc]|(cert & Hin & Hc & Hx)].
  - left. split; [exact Hk|].
    apply orb_true_iff in Hc as [Hc|Hc]; apply orb_true_iff;
      [left | right]; now apply contains_extend.
  - right. exists cert. repeat split; trivial. now apply contains_extend.
Qed.

Lemma extract_skills_monotone_witness :
  In "siem"
    (ext_skills (extract_from_text ("Role: " ++ soc_description ++ " Apply now."))).
Proof.
  apply extract_skills_monotone.
  rewrite extract_soc_description. simpl. tauto.
Defined.

(** ** Canonical keys are fixed points of the normalizer *)

Lemma role_keys_fixed k :
  In k (keys BASELINES_2024) -> normalize_role k = inr k.
Proof.
  intros H.
  assert (Hall : forallb (fun k => match normalize_role k with
                                   | inr k' => String.eqb k' k
                                   | inl _ => false
                                   end) (keys BASELINES_2024) = true)
    by (vm_compute; reflexivity).
  apply (proj1 (forallb_forall _ _) Hall) in H.
  destruct (normalize_role k) as [e|k']; [discriminate|].
  now apply String.eqb_eq in H as ->.
Qed.

Lemma level_keys_fixed l : In l LEVEL_KEYS -> normalize_level l = inr l.
Proof.
  intros H. simpl in H.
  repeat (destruct H as [<-|H]; [reflexivity|]). destruct H.
Qed.

Lemma is_level_In l : is_level l = true -> In l LEVEL_KEYS.
Proof.
  unfold is_level. intros H. apply existsb_exists in H as (l' & Hin & Heq).
  now apply String.eqb_eq in Heq as ->.
Qed.

(** X7.  The normalizer never fails, and it is idempotent: a role goes
    to a key of [BASELINES_2024] and a level to one of entry, mid,
    senior, and normalizing the answer again returns it unchanged. *)
Theorem normalizer_canonical_and_idempotent (role level : string) :
  exists role_key level_key,
    normalize_role role = inr role_key
    /\ In role_key (keys BASELINES_2024)
    /\ normalize_role role_key = inr role_key
    /\ normalize_level level = inr level_key
    /\ In level_key LEVEL_KEYS
    /\ normalize_level level_key = inr level_key.
Proof.
  destruct (normalize_role_total role) as (rk & Hrk & Hrk_ok).
  destruct (normalize_level_total level) as (lv & Hlv & Hlv_ok).
  apply in_keys_mem in Hrk_ok. apply is_level_In in Hlv_ok.
  exists rk, lv. repeat split; trivial.
  - now apply role_keys_fixed.
  - now apply level_keys_fixed.
Qed.

(** ** Compound growth *)

Lemma cagr_rate_bounds role_key :
  0.05 <= get CAGR_BY_ROLE role_key 0.05 <= 0.07.
Proof.
  destruct (get_cases CAGR_BY_ROLE role_key 0.05) as [H| ->];
    [|split; discriminate].
  apply (values_forallb
           (fun c => Qle_bool 0.05 c && Qle_bool c 0.07) CAGR_BY_ROLE)
    in H; [|reflexivity].
  apply andb_true_iff in H as [H1 H2].
  now rewrite !Qle_bool_iff in *.
Qed.

Lemma apply_cagr_eq low high role_key years :
  apply_cagr low high role_key years
  = inr (low * (1.0 + get CAGR_BY_ROLE role_key 0.05) ^ years,
         high * (1.0 + get CAGR_BY_ROLE role_key 0.05) ^ years).
Proof. reflexivity. Qed.

Lemma growth_factor_bounds role_key :
  1.1025 <= growth_factor role_key <= 1.1449.
Proof.
  unfold growth_factor. pose proof (cagr_rate_bounds role_key) as [H1 H2].
  simpl. generalize dependent (get CAGR_BY_ROLE role_key 0.05).
  intros c H1 H2. split; nra.
Qed.

(** X8.  Over the two years of the model a non-negative salary pair
    grows by between 10.25% and 14.49%, whatever the role key, and the
    pair stays ordered; [apply_cagr] does not fail on a role key that
    has no rate of its own. *)
Theorem apply_cagr_two_years (low high : Q) (role_key : string) :
  0 <= low <= high ->
  exists low' high',
    apply_cagr low high role_key 2 = inr (low', high')
    /\ 1.1025 * low <= low' <= 1.1449 * low
    /\ 1.1025 * high <= high' <= 1.1449 * high
    /\ low' <= high'.
Proof.
  intros [Hl Hlh]. rewrite apply_cagr_eq. fold (growth_factor role_key).
  pose proof (growth_factor_bounds role_key) as [Hf1 Hf2].
  eexists. eexists. split; [reflexivity|].
  repeat split; nra.
Qed.

Lemma apply_cagr_two_years_witness :
  exists low' high',
    apply_cagr 90000 120000 "astronaut" 2 = inr (low', high')
    /\ 1.1025 * 90000 <= low' <= 1.1449 * 90000
    /\ 1.1025 * 120000 <= high' <= 1.1449 * 120000
    /\ low' <= high'.
Proof.
  apply (apply_cagr_two_years 90000 120000 "astronaut").
  split; discriminate.
Defined.

(** ** More about the skills premium *)

Lemma premium_sum_perm l l' :
  Permutation l l' -> premium_sum l == premium_sum l'.
Proof.
  induction 1 as [|x l l' _ IH|x y l|l l' l'' _ IH1 _ IH2]; simpl.
  - reflexivity.
  - now rewrite IH.
  - ring.
  - now rewrite IH1.
Qed.

Lemma skills_formula_compat l l' :
  premium_sum l == premium_sum l' -> skills_formula l == skills_formula l'.
Proof. unfold skills_formula. now intros ->. Qed.

(** X11.  Once the premiums of a list add up to 0.25 or more, the
    multiplier is 1.2125 and no further skill changes it. *)
Theorem compute_skills_multiplier_saturates (l more : list string) :
  0.25 <= premium_sum l ->
  compute_skills_multiplier l == 1.2125
  /\ compute_skills_multiplier (l ++ more) == 1.2125.
Proof.
  intros H. rewrite !compute_skills_multiplier_formula.
  unfold skills_formula. rewrite premium_sum_app.
  pose proof (premium_sum_nonneg more) as Hm.
  rewrite !Q.min_r by lra. split; reflexivity.
Qed.

Lemma compute_skills_multiplier_saturates_witness :
  compute_skills_multiplier five_certs == 1.2125
  /\ compute_skills_multiplier (five_certs ++ ["ccsp"; "dfir"]) == 1.2125.
Proof.
  apply (compute_skills_multiplier_saturates five_certs ["ccsp"; "dfir"]).
  discriminate.
Defined.

Lemma premium_sum_known l : premium_sum (known_skills l) == premium_sum l.
Proof.
  induction l as [|s l IH]; simpl; [reflexivity|].
  unfold mem, premium_of.
  destruct (lookup SKILL_PREMIUM s) as [p|] eqn:Hs; simpl.
  - unfold premium_of. rewrite Hs. fold (known_skills l). now rewrite IH.
  - fold (known_skills l). rewrite IH. ring.
Qed.

(** X12.  Tokens that are not keys of [SKILL_PREMIUM] are ignored:
    dropping them leaves the multiplier unchanged, and a list with no
    known token, the empty list included, has multiplier 1.  The lookup
    is exact, so a known token in another letter case is unknown. *)
Theorem compute_skills_multiplier_ignores_unknown (l : list string) :
  compute_skills_multiplier (known_skills l) == compute_skills_multiplier l
  /\ (known_skills l = [] -> compute_skills_multiplier l == 1)
  /\ compute_skills_multiplier [] == 1
  /\ known_skills ["SIEM"; "Siem"; "siem "] = [].
Proof.
  assert (E : compute_skills_multiplier (known_skills l)
              == compute_skills_multiplier l).
  { rewrite !compute_skills_multiplier_formula.
    apply skills_formula_compat, premium_sum_known. }
  split; [exact E|]. split; [|split; reflexivity].
  intros H. rewrite <- E, H. reflexivity.
Qed.

Lemma compute_skills_multiplier_ignores_unknown_witness :
  compute_skills_multiplier ["SIEM"; "juggling"] == 1.
Proof.
  apply (proj1 (proj2 (compute_skills_multiplier_ignores_unknown
                         ["SIEM"; "juggling"]))).
  reflexivity.
Defined.

(** ** Geography *)

(** X13.  Every location code has a multiplier, and it lies between
    0.95 and 1.18. *)
Theorem compute_geo_multiplier_bounds (state : string) :
  exists m, compute_geo_multiplier state = inr m /\ 0.95 <= m <= 1.18.
Proof.
  rewrite compute_geo_multiplier_eq. eexists. split; [reflexivity|].
  destruct (get_cases GEO_MULTIPLIER (PyStr.upper (PyStr.strip state)) 1.00)
    as [H| ->]; [|split; discriminate].
  apply (values_forallb
           (fun m => Qle_bool 0.95 m && Qle_bool m 1.18) GEO_MULTIPLIER)
    in H; [|reflexivity].
  apply andb_true_iff in H as [H1 H2].
  now rewrite !Qle_bool_iff in *.
Qed.

(** ** More about the experience factor *)

Lemma clip_monotone x y lo hi : x <= y -> clip x lo hi <= clip y lo hi.
Proof.
  intros H. unfold clip.
  apply Q.min_le_compat_r, Q.max_le_compat_r, H.
Qed.

Lemma leverage_positive role_key : 0.008 <= leverage_of role_key <= 0.010.
Proof.
  unfold leverage_of.
  repeat (destruct (String.eqb role_key _); [split; discriminate|]).
  split; discriminate.
Qed.

Lemma regression_adjustment_clip role_key level years :
  regression_adjustment role_key level years
  = 1.0 + clip ((years - get LEVEL_TARGET level 4.0) * leverage_of role_key)
            (-0.05) 0.08.
Proof. unfold regression_adjustment. now rewrite leverage_of_set. Qed.

Lemma regression_adjustment_le role_key level y1 y2 :
  y1 <= y2 ->
  regression_adjustment role_key level y1
  <= regression_adjustment role_key level y2.
Proof.
  intros H. rewrite !regression_adjustment_clip.
  pose proof (leverage_positive role_key) as [Hl _].
  apply Qplus_le_r, clip_monotone, Qmult_le_compat_r; lra.
Qed.

(** X14.  More experience never lowers the regression factor. *)
Theorem regression_adjustment_monotone
    (role_key level : string) (y1 y2 : Q) :
  y1 <= y2 ->
  regression_adjustment role_key level y1
  <= regression_adjustment role_key level y2.
Proof. apply regression_adjustment_le. Qed.

Lemma regression_adjustment_monotone_witness :
  regression_adjustment "soc_analyst" "mid" 2
  <= regression_adjustment "soc_analyst" "mid" 7.
Proof.
  apply (regression_adjustment_monotone "soc_analyst" "mid" 2 7).
  discriminate.
Defined.

(** X15.  The regression factor is 1 at the target years of the level,
    reaches its ceiling 1.08 from ten years above the target and its
    floor 0.95 from six and a quarter years below it, on every role
    key. *)
Theorem regression_adjustment_landmarks
    (role_key level : string) (years : Q) :
  (years == target_years level ->
   regression_adjustment role_key level years == 1)
  /\ (target_years level + 10 <= years ->
      regression_adjustment role_key level years == 1.08)
  /\ (years <= target_years level - 6.25 ->
      regression_adjustment role_key level years == 0.95).
Proof.
  rewrite regression_adjustment_clip.
  pose proof (target_years_get level) as Ht.
  pose proof (leverage_positive role_key) as [Hl1 Hl2].
  set (x := (years - get LEVEL_TARGET level 4.0) * leverage_of role_key).
  assert (Hx : x == (years - target_years level) * leverage_of role_key)
    by (unfold x; rewrite Ht; reflexivity).
  rewrite (clip_clamp x) by lra. unfold clamp.
  repeat split; intros H;
    destruct (Qlt_le_dec x (-0.05)); try destruct (Qlt_le_dec 0.08 x);
    nra.
Qed.

Lemma regression_adjustment_landmarks_witness :
  regression_adjustment "grc_analyst" "entry" 1 == 1
  /\ regression_adjustment "grc_analyst" "entry" 30 == 1.08
  /\ regression_adjustment "grc_analyst" "senior" 1 == 0.95.
Proof.
  split; [|split].
  - apply (proj1 (regression_adjustment_landmarks "grc_analyst" "entry" 1)).
    reflexivity.
  - apply (proj1 (proj2 (regression_adjustment_landmarks
                           "grc_analyst" "entry" 30))).
    discriminate.
  - apply (proj2 (proj2 (regression_adjustment_landmarks
                           "grc_analyst" "senior" 1))).
    discriminate.
Defined.

(** ** More about the blend *)

(** [predict_2026_ok] with the enriched triple named by projections. *)
Lemma predict_2026_facts inp weights w_sk w_geo w_reg :
  lookup (effective_weights weights) "skills" = Some w_sk ->
  lookup (effective_weights weights) "geo" = Some w_geo ->
  lookup (effective_weights weights) "regression" = Some w_reg ->
  exists caller_role caller_level by_level base b,
    normalize_role (role inp) = inr caller_role
    /\ normalize_level (level inp) = inr caller_level
    /\ lookup BASELINES_2024
         (fst (fst (enriched inp caller_role caller_level))) = Some by_level
    /\ lookup by_level (snd (fst (enriched inp caller_role caller_level)))
       = Some base
    /\ predict_2026 inp weights = inr b
    /\ blend_facts b
         (fst (fst (enriched inp caller_role caller_level)))
         (snd (fst (enriched inp caller_role caller_level)))
         base
         (snd (enriched inp caller_role caller_level))
         (state inp) (years_experience inp) w_sk w_geo w_reg.
Proof.
  intros Hs Hg Hr.
  destruct (predict_2026_ok inp weights _ _ _ Hs Hg Hr)
    as (rk & lv & by_level & base & b & Hrk & Hlv & H).
  exists rk, lv, by_level, base, b.
  destruct (enriched inp rk lv) as [[role_key level] skills].
  cbn [fst snd]. tauto.
Qed.

Lemma baseline_positive role_key level by_level base :
  lookup BASELINES_2024 role_key = Some by_level ->
  lookup by_level level = Some base ->
  (0 < fst base)%Z /\ (0 < snd base)%Z.
Proof.
  intros Hrow Hbase. apply lookup_values in Hrow, Hbase.
  apply (values_forallb row_positive BASELINES_2024) in Hrow;
    [|reflexivity].
  apply (proj1 (forallb_forall _ _) Hrow) in Hbase.
  apply andb_true_iff in Hbase as [H1 H2].
  now rewrite !Z.ltb_lt in *.
Qed.

Lemma lerp_bounds lo hi x y w :
  0 <= w <= 1 -> lo <= x <= hi -> lo <= y <= hi -> lo <= lerp x y w <= hi.
Proof.
  intros [Hw0 Hw1] [Hx1 Hx2] [Hy1 Hy2]. unfold lerp.
  assert (E1 : lo == (1 - w) * lo + w * lo) by ring.
  assert (E2 : hi == (1 - w) * hi + w * hi) by ring.
  split.
  - rewrite E1. apply Qplus_le_compat; rewrite !(Qmult_comm _ lo);
      [rewrite (Qmult_comm _ x) | rewrite (Qmult_comm _ y)];
      apply Qmult_le_compat_r; lra.
  - rewrite E2. apply Qplus_le_compat; rewrite !(Qmult_comm _ hi);
      [rewrite (Qmult_comm _ x) | rewrite (Qmult_comm _ y)];
      apply Qmult_le_compat_r; lra.
Qed.

Lemma blended_bounds lo hi a s g r w_sk w_geo w_reg :
  0 <= w_sk <= 1 -> 0 <= w_geo <= 1 -> 0 <= w_reg <= 1 ->
  lo <= a <= hi -> lo <= a * s <= hi -> lo <= a * s * g <= hi ->
  lo <= a * s * g * r <= hi ->
  lo <= blended a s g r w_sk w_geo w_reg <= hi.
Proof.
  intros Hws Hwg Hwr Ha Hb Hd He. unfold blended.
  repeat apply lerp_bounds; assumption.
Qed.

Lemma blend_facts_positive b role_key level by_level base skills state years
    w_sk w_geo w_reg :
  blend_facts b role_key level base skills state years w_sk w_geo w_reg ->
  lookup BASELINES_2024 role_key = Some by_level ->
  lookup by_level level = Some base ->
  0 < baseline_low b /\ 0 < baseline_high b
  /\ 0 < inflation_low b /\ 0 < inflation_high b
  /\ 1.1025 * 1.07 * baseline_low b <= inflation_low b
     <= 1.1449 * 1.07 * baseline_low b
  /\ 1.1025 * 1.07 * baseline_high b <= inflation_high b
     <= 1.1449 * 1.07 * baseline_high b.
Proof.
  intros F Hrow Hbase.
  destruct (baseline_positive _ _ _ _ Hrow Hbase) as [Hl Hh].
  rewrite (bf_infl_low _ _ _ _ _ _ _ _ _ _ F).
  rewrite (bf_infl_high _ _ _ _ _ _ _ _ _ _ F).
  rewrite (bf_cagr_low _ _ _ _ _ _ _ _ _ _ F).
  rewrite (bf_cagr_high _ _ _ _ _ _ _ _ _ _ F).
  rewrite (bf_base_low _ _ _ _ _ _ _ _ _ _ F).
  rewrite (bf_base_high _ _ _ _ _ _ _ _ _ _ F).
  assert (Hl' : 0 < inject_Z (fst base))
    by (change 0 with (inject_Z 0); now rewrite <- Zlt_Qlt).
  assert (Hh' : 0 < inject_Z (snd base))
    by (change 0 with (inject_Z 0); now rewrite <- Zlt_Qlt).
  pose proof (growth_factor_bounds role_key) as [Hf1 Hf2].
  unfold INFLATION_2024_TO_2026.
  repeat split; nra.
Qed.

Lemma multipliers_bounds b role_key level base skills state years
    w_sk w_geo w_reg :
  blend_facts b role_key level base skills state years w_sk w_geo w_reg ->
  1 <= skills_multiplier b <= 1.2125
  /\ 0.95 <= geo_multiplier b <= 1.18
  /\ 0.95 <= regression_adjustment_factor b <= 1.08.
Proof.
  intros F.
  rewrite (bf_skills _ _ _ _ _ _ _ _ _ _ F).
  rewrite (bf_geo _ _ _ _ _ _ _ _ _ _ F).
  rewrite (bf_reg _ _ _ _ _ _ _ _ _ _ F).
  split; [|split].
  - rewrite compute_skills_multiplier_formula. apply skills_formula_bounds.
  - unfold geo_of.
    destruct (get_cases GEO_MULTIPLIER (PyStr.upper (PyStr.strip state)) 1.00)
      as [H| ->]; [|split; discriminate].
    apply (values_forallb
             (fun m => Qle_bool 0.95 m && Qle_bool m 1.18) GEO_MULTIPLIER)
      in H; [|reflexivity].
    apply andb_true_iff in H as [H1 H2].
    now rewrite !Qle_bool_iff in *.
  - apply regression_adjustment_bounds.
Qed.

Lemma product_bounds a s g r :
  0 <= a -> 1 <= s <= 1.2125 -> 0.95 <= g <= 1.18 -> 0.95 <= r <= 1.08 ->
  (0.9025 * a <= a <= 1.54521 * a)
  /\ (0.9025 * a <= a * s <= 1.54521 * a)
  /\ (0.9025 * a <= a * s * g <= 1.54521 * a)
  /\ (0.9025 * a <= a * s * g * r <= 1.54521 * a).
Proof.
  intros Ha [Hs1 Hs2] [Hg1 Hg2] [Hr1 Hr2].
  assert (B1 : a <= a * s <= 1.2125 * a) by (split; nra).
  assert (B2 : 0.95 * a <= a * s * g <= 1.2125 * 1.18 * a).
  { split.
    - apply Qle_trans with (a * s * 0.95); [lra|].
      rewrite !(Qmult_comm (a * s)). apply Qmult_le_compat_r; lra.
    - apply Qle_trans with (a * s * 1.18); [|lra].
      rewrite !(Qmult_comm (a * s)). apply Qmult_le_compat_r; lra. }
  assert (B3 : 0.95 * 0.95 * a <= a * s * g * r <= 1.2125 * 1.18 * 1.08 * a).
  { split.
    - apply Qle_trans with (a * s * g * 0.95); [lra|].
      rewrite !(Qmult_comm (a * s * g)). apply Qmult_le_compat_r; lra.
    - apply Qle_trans with (a * s * g * 1.08); [|lra].
      rewrite !(Qmult_comm (a * s * g)). apply Qmult_le_compat_r; lra. }
  repeat split; lra.
Qed.

(** X17.  With the three weights in [0, 1] every salary figure of the
    breakdown is positive, low and high alike, and the three
    multipliers stay in their bands. *)
Theorem breakdown_positive_and_bounded
    (inp : PredictionInput) (weights : option (dict Q)) (w_sk w_geo w_reg : Q) :
  lookup (effective_weights weights) "skills" = Some w_sk ->
  lookup (effective_weights weights) "geo" = Some w_geo ->
  lookup (effective_weights weights) "regression" = Some w_reg ->
  0 <= w_sk <= 1 -> 0 <= w_geo <= 1 -> 0 <= w_reg <= 1 ->
  exists b,
    predict_2026 inp weights = inr b
    /\ (0 < baseline_low b /\ 0 < baseline_high b)
    /\ (0 < cagr_low b /\ 0 < cagr_high b)
    /\ (0 < inflation_low b /\ 0 < inflation_high b)
    /\ (0 < final_low b /\ 0 < final_mid b /\ 0 < final_high b)
    /\ 1 <= skills_multiplier b <= 1.2125
    /\ 0.95 <= geo_multiplier b <= 1.18
    /\ 0.95 <= regression_adjustment_factor b <= 1.08.
Proof.
  intros Hs Hg Hr Hws Hwg Hwr.
  destruct (predict_2026_facts inp weights _ _ _ Hs Hg Hr)
    as (rk & lv & by_level & base & b & _ & _ & Hrow & Hbase & Hb & F).
  exists b. split; [exact Hb|].
  destruct (blend_facts_positive _ _ _ _ _ _ _ _ _ _ _ F Hrow Hbase)
    as (Hbl & Hbh & Hil & Hih & _).
  pose proof (multipliers_bounds _ _ _ _ _ _ _ _ _ _ F) as (Bs & Bg & Br).
  assert (Hlow : 0 < final_low b).
  { rewrite (bf_low _ _ _ _ _ _ _ _ _ _ F).
    destruct (product_bounds (inflation_low b) _ _ _
                (Qlt_le_weak _ _ Hil) Bs Bg Br) as (H1 & H2 & H3 & H4).
    pose proof (blended_bounds _ _ _ _ _ _ _ _ _ Hws Hwg Hwr H1 H2 H3 H4).
    lra. }
  assert (Hhigh : 0 < final_high b).
  { rewrite (bf_high _ _ _ _ _ _ _ _ _ _ F).
    destruct (product_bounds (inflation_high b) _ _ _
                (Qlt_le_weak _ _ Hih) Bs Bg Br) as (H1 & H2 & H3 & H4).
    pose proof (blended_bounds _ _ _ _ _ _ _ _ _ Hws Hwg Hwr H1 H2 H3 H4).
    lra. }
  assert (Hmid : 0 < final_mid b).
  { rewrite (bf_mid _ _ _ _ _ _ _ _ _ _ F).
    assert (E : (final_low b + final_high b) / 2.0
                == (final_low b + final_high b) * (1 # 2)) by field.
    rewrite E. lra. }
  assert (Hc : 0 < cagr_low b /\ 0 < cagr_high b).
  { rewrite (bf_cagr_low _ _ _ _ _ _ _ _ _ _ F).
    rewrite (bf_cagr_high _ _ _ _ _ _ _ _ _ _ F).
    pose proof (growth_factor_bounds
                  (fst (fst (enriched inp rk lv)))) as [Hf _].
    split; nra. }
  repeat split; try tauto; try lra.
Qed.

Lemma breakdown_positive_and_bounded_witness :
  exists b,
    predict_2026 soc_input None = inr b
    /\ (0 < baseline_low b /\ 0 < baseline_high b)
    /\ (0 < cagr_low b /\ 0 < cagr_high b)
    /\ (0 < inflation_low b /\ 0 < inflation_high b)
    /\ (0 < final_low b /\ 0 < final_mid b /\ 0 < final_high b)
    /\ 1 <= skills_multiplier b <= 1.2125
    /\ 0.95 <= geo_multiplier b <= 1.18
    /\ 0.95 <= regression_adjustment_factor b <= 1.08.
Proof.
  apply (breakdown_positive_and_bounded soc_input None 0.20 0.20 0.20);
    try reflexivity; split; discriminate.
Defined.

(** ** The weight configuration *)

Lemma predict_2026_reduce inp weights :
  exists role_key level skills base,
    predict_2026 inp weights
    = blend role_key level base skills (state inp) (years_experience inp)
        (effective_weights weights).
Proof.
  destruct (enrich_total inp) as (rk & lv & _ & _ & Hen & Hrk_ok & Hlv_ok).
  destruct (enriched inp rk lv) as [[role_key level] skills].
  cbn [fst snd] in Hrk_ok, Hlv_ok.
  destruct (baseline_for_total role_key level)
    as (by_level & base & Hbase & _).
  rewrite (guarded_role_id _ Hrk_ok), (guarded_level_id _ Hlv_ok) in Hbase.
  exists role_key, level, skills, base.
  unfold predict_2026. now rewrite Hen, bind_inr, Hbase, bind_inr.
Qed.

Lemma blend_unfold role_key level base skills state years weights :
  blend role_key level base skills state years weights
  = (w_sk <- getitem weights "skills" ;;
     w_geo <- getitem weights "geo" ;;
     w_reg <- getitem weights "regression" ;;
     let a_low :=
       inject_Z (fst base) * growth_factor role_key * INFLATION_2024_TO_2026 in
     let a_high :=
       inject_Z (snd base) * growth_factor role_key * INFLATION_2024_TO_2026 in
     let s := compute_skills_multiplier skills in
     let g := geo_of state in
     let r := regression_adjustment role_key level years in
     ret {| baseline_low := inject_Z (fst base);
            baseline_high := inject_Z (snd base);
            cagr_low := inject_Z (fst base) * growth_factor role_key;
            cagr_high := inject_Z (snd base) * growth_factor role_key;
            inflation_low := a_low;
            inflation_high := a_high;
            skills_multiplier := s;
            geo_multiplier := g;
            regression_adjustment_factor := r;
            final_low := blended a_low s g r w_sk w_geo w_reg;
            final_mid :=
              (blended a_low s g r w_sk w_geo w_reg
               + blended a_high s g r w_sk w_geo w_reg) / 2.0;
            final_high := blended a_high s g r w_sk w_geo w_reg |}).
Proof. destruct base as [base_low base_high]. reflexivity. Qed.

Lemma blend_weights_agree role_key level base skills state years w w' :
  lookup w "skills" = lookup w' "skills" ->
  lookup w "geo" = lookup w' "geo" ->
  lookup w "regression" = lookup w' "regression" ->
  blend role_key level base skills state years w
  = blend role_key level base skills state years w'.
Proof.
  intros Hs Hg Hr. rewrite !blend_unfold. unfold getitem.
  now rewrite Hs, Hg, Hr.
Qed.

(** X19.  Only the skills, geo and regression entries of a weight
    configuration are read: two non-empty configurations that agree on
    these three give the same result, whatever their [cagr] and
    [inflation] entries and whatever other keys they hold. *)
Theorem only_three_weights_are_read
    (inp : PredictionInput) (w w' : dict Q) :
  truthy w = true -> truthy w' = true ->
  lookup w "skills" = lookup w' "skills" ->
  lookup w "geo" = lookup w' "geo" ->
  lookup w "regression" = lookup w' "regression" ->
  predict_2026 inp (Some w) = predict_2026 inp (Some w').
Proof.
  intros Hw Hw' Hs Hg Hr. unfold predict_2026.
  destruct (enrich inp) as [e|[[role_key level] skills]]; [reflexivity|].
  rewrite !bind_inr.
  destruct (baseline_for role_key level) as [e|[[rk0 lv0] base0]];
    [reflexivity|].
  rewrite !bind_inr. cbn [effective_weights]. rewrite Hw, Hw'.
  now apply blend_weights_agree.
Qed.

Lemma only_three_weights_are_read_witness :
  predict_2026 soc_input (Some DEFAULT_WEIGHTS)
  = predict_2026 soc_input (Some other_weights).
Proof.
  apply (only_three_weights_are_read soc_input DEFAULT_WEIGHTS other_weights);
    reflexivity.
Defined.

(** X20.  A non-empty weight configuration that lacks one of the three
    keys makes [predict_2026] raise [KeyError] on the first missing one,
    in the order skills, geo, regression. *)
Theorem missing_weight_raises (inp : PredictionInput) (w : dict Q) :
  truthy w = true ->
  (lookup w "skills" = None ->
   predict_2026 inp (Some w) = inl (KeyError "skills"))
  /\ (lookup w "skills" <> None -> lookup w "geo" = None ->
      predict_2026 inp (Some w) = inl (KeyError "geo"))
  /\ (lookup w "skills" <> None -> lookup w "geo" <> None ->
      lookup w "regression" = None ->
      predict_2026 inp (Some w) = inl (KeyError "regression")).
Proof.
  intros Hw.
  destruct (predict_2026_reduce inp (Some w)) as (rk & lv & sk & base & ->).
  cbn [effective_weights]. rewrite Hw, blend_unfold. unfold getitem.
  split; [|split].
  - now intros ->.
  - destruct (lookup w "skills"); [|congruence]. now intros _ ->.
  - destruct (lookup w "skills"); [|congruence].
    destruct (lookup w "geo"); [|congruence]. now intros _ _ ->.
Qed.

Lemma missing_weight_raises_witness :
  predict_2026 soc_input (Some [("skills", 0.5); ("regression", 0.5)])
  = inl (KeyError "geo").
Proof.
  apply (proj1 (proj2 (missing_weight_raises soc_input
                         [("skills", 0.5); ("regression", 0.5)] eq_refl)));
    [discriminate | reflexivity].
Defined.

(** X21.  Empty arguments count as absent: an empty weight dictionary
    is replaced by the defaults instead of raising, and an empty job
    description is not extracted from, so the caller's skills are used
    as given. *)
Theorem empty_arguments_are_absent (inp : PredictionInput) :
  predict_2026 inp (Some []) = predict_2026 inp None
  /\ predict_2026 (with_description inp (Some "")) None
     = predict_2026 (with_description inp None) None
  /\ exists b,
       predict_2026 (with_description inp (Some "")) (Some []) = inr b
       /\ skills_multiplier b = compute_skills_multiplier (skills inp).
Proof.
  split; [reflexivity|]. split; [reflexivity|].
  destruct (predict_2026_facts (with_description inp (Some "")) (Some [])
              0.20 0.20 0.20 eq_refl eq_refl eq_refl)
    as (rk & lv & by_level & base & b & _ & _ & _ & _ & Hb & F).
  exists b. split; [exact Hb|].
  exact (bf_skills _ _ _ _ _ _ _ _ _ _ F).
Qed.

(** ** Comparing two predictions *)

Lemma enriched_keys inp inp' role_key level :
  job_description inp' = job_description inp ->
  fst (enriched inp' role_key level) = fst (enriched inp role_key level).
Proof.
  intros H. unfold enriched. rewrite H.
  now destruct (described (job_description inp)).
Qed.

(** Two inputs that differ in skills and years only are priced on the
    same baseline row, with the same growth and geo multiplier. *)
Lemma predict_2026_pair inp inp' weights w_sk w_geo w_reg :
  role inp' = role inp -> level inp' = level inp ->
  state inp' = state inp -> job_description inp' = job_description inp ->
  lookup (effective_weights weights) "skills" = Some w_sk ->
  lookup (effective_weights weights) "geo" = Some w_geo ->
  lookup (effective_weights weights) "regression" = Some w_reg ->
  exists caller_role caller_level role_key level by_level base b b',
    predict_2026 inp weights = inr b
    /\ predict_2026 inp' weights = inr b'
    /\ lookup BASELINES_2024 role_key = Some by_level
    /\ lookup by_level level = Some base
    /\ blend_facts b role_key level base
         (snd (enriched inp caller_role caller_level))
         (state inp) (years_experience inp) w_sk w_geo w_reg
    /\ blend_facts b' role_key level base
         (snd (enriched inp' caller_role caller_level))
         (state inp) (years_experience inp') w_sk w_geo w_reg.
Proof.
  intros Hrole Hlevel Hstate Hdesc Hs Hg Hr.
  destruct (predict_2026_facts inp weights _ _ _ Hs Hg Hr)
    as (rk & lv & by_level & base & b & Hrk & Hlv & Hrow & Hbase & Hb & F).
  destruct (predict_2026_facts inp' weights _ _ _ Hs Hg Hr)
    as (rk' & lv' & by_level' & base' & b' & Hrk' & Hlv' & Hrow' & Hbase'
        & Hb' & F').
  rewrite Hrole in Hrk'. rewrite Hlevel in Hlv'.
  assert (rk' = rk) by congruence. assert (lv' = lv) by congruence.
  subst rk' lv'.
  rewrite (enriched_keys inp inp' rk lv Hdesc) in Hrow', Hbase', F'.
  assert (by_level' = by_level) by congruence. subst by_level'.
  assert (base' = base) by congruence. subst base'.
  rewrite Hstate in F'.
  exists rk, lv, (fst (fst (enriched inp rk lv))),
    (snd (fst (enriched inp rk lv))), by_level, base, b, b'.
  split; [exact Hb|]. split; [exact Hb'|]. split; [exact Hrow|].
  split; [exact Hbase|]. split; [exact F | exact F'].
Qed.

Lemma blended_compat a s s' g r r' w_sk w_geo w_reg :
  s == s' -> r == r' ->
  blended a s g r w_sk w_geo w_reg == blended a s' g r' w_sk w_geo w_reg.
Proof. intros Hs Hr. unfold blended, lerp. now rewrite Hs, Hr. Qed.

Lemma blended_skills_le a s s' g r w_sk w_geo w_reg :
  0 <= a -> 0 <= g -> 0 <= r ->
  0 <= w_sk <= 1 -> 0 <= w_geo <= 1 -> 0 <= w_reg <= 1 ->
  s <= s' ->
  blended a s g r w_sk w_geo w_reg <= blended a s' g r w_sk w_geo w_reg.
Proof.
  intros Ha Hg Hr Hws Hwg Hwr Hs.
  set (c := (1 - w_reg) * ((1 - w_geo) * w_sk + w_geo * g) + w_reg * (g * r)).
  assert (Hc : 0 <= c).
  { unfold c.
    assert (0 <= (1 - w_geo) * w_sk) by (apply Qmult_le_0_compat; lra).
    assert (0 <= w_geo * g) by (apply Qmult_le_0_compat; lra).
    assert (0 <= g * r) by (apply Qmult_le_0_compat; lra).
    assert (0 <= (1 - w_reg) * ((1 - w_geo) * w_sk + w_geo * g))
      by (apply Qmult_le_0_compat; lra).
    assert (0 <= w_reg * (g * r)) by (apply Qmult_le_0_compat; lra).
    lra. }
  assert (E : blended a s' g r w_sk w_geo w_reg
              == blended a s g r w_sk w_geo w_reg + a * c * (s' - s))
    by (unfold blended, lerp, c; ring).
  rewrite E.
  assert (0 <= a * c) by (apply Qmult_le_0_compat; lra).
  assert (0 <= a * c * (s' - s)) by (apply Qmult_le_0_compat; lra).
  lra.
Qed.

Lemma blended_regression_le a s g r r' w_sk w_geo w_reg :
  0 <= a -> 0 <= s -> 0 <= g -> 0 <= w_reg ->
  r <= r' ->
  blended a s g r w_sk w_geo w_reg <= blended a s g r' w_sk w_geo w_reg.
Proof.
  intros Ha Hs Hg Hwr Hr.
  assert (E : blended a s g r' w_sk w_geo w_reg
              == blended a s g r w_sk w_geo w_reg
                 + a * s * g * w_reg * (r' - r))
    by (unfold blended, lerp; ring).
  rewrite E.
  assert (0 <= a * s) by (apply Qmult_le_0_compat; lra).
  assert (0 <= a * s * g) by (apply Qmult_le_0_compat; lra).
  assert (0 <= a * s * g * w_reg) by (apply Qmult_le_0_compat; lra).
  assert (0 <= a * s * g * w_reg * (r' - r))
    by (apply Qmult_le_0_compat; lra).
  lra.
Qed.

Lemma mid_compat l h l' h' :
  l == l' -> h == h' -> (l + h) / 2.0 == (l' + h') / 2.0.
Proof. intros -> ->. reflexivity. Qed.

Lemma mid_le l h l' h' :
  l <= l' -> h <= h' -> (l + h) / 2.0 <= (l' + h') / 2.0.
Proof.
  intros Hl Hh.
  assert (E : forall x, x / 2.0 == x * (1 # 2)) by (intros; field).
  rewrite !E. lra.
Qed.

(** The figures two such breakdowns share. *)
Lemma shared_figures b b' role_key level base skills skills' state
    years years' w_sk w_geo w_reg :
  blend_facts b role_key level base skills state years w_sk w_geo w_reg ->
  blend_facts b' role_key level base skills' state years' w_sk w_geo w_reg ->
  inflation_low b' = inflation_low b
  /\ inflation_high b' = inflation_high b
  /\ geo_multiplier b' = geo_multiplier b.
Proof.
  intros F F'.
  rewrite (bf_infl_low _ _ _ _ _ _ _ _ _ _ F).
  rewrite (bf_infl_high _ _ _ _ _ _ _ _ _ _ F).
  rewrite (bf_infl_low _ _ _ _ _ _ _ _ _ _ F').
  rewrite (bf_infl_high _ _ _ _ _ _ _ _ _ _ F').
  rewrite (bf_cagr_low _ _ _ _ _ _ _ _ _ _ F).
  rewrite (bf_cagr_high _ _ _ _ _ _ _ _ _ _ F).
  rewrite (bf_cagr_low _ _ _ _ _ _ _ _ _ _ F').
  rewrite (bf_cagr_high _ _ _ _ _ _ _ _ _ _ F').
  rewrite (bf_base_low _ _ _ _ _ _ _ _ _ _ F).
  rewrite (bf_base_high _ _ _ _ _ _ _ _ _ _ F).
  rewrite (bf_base_low _ _ _ _ _ _ _ _ _ _ F').
  rewrite (bf_base_high _ _ _ _ _ _ _ _ _ _ F').
  rewrite (bf_geo _ _ _ _ _ _ _ _ _ _ F), (bf_geo _ _ _ _ _ _ _ _ _ _ F').
  now repeat split.
Qed.

Lemma premium_sum_incl l l' :
  NoDup l -> incl l l' -> premium_sum l <= premium_sum l'.
Proof.
  intros Hnd. revert l'. induction Hnd as [|x l Hx Hnd IH]; intros l' Hincl.
  - apply premium_sum_nonneg.
  - assert (Hin : In x l') by (apply Hincl; now left).
    apply in_split in Hin as (l1 & l2 & ->).
    assert (Hl : incl l (l1 ++ l2)).
    { intros y Hy. assert (Hy' : In y (l1 ++ x :: l2))
        by (apply Hincl; now right).
      apply in_app_iff in Hy' as [Hy'|[->|Hy']]; try tauto;
        apply in_app_iff; tauto. }
    specialize (IH _ Hl). rewrite premium_sum_app in *. simpl. lra.
Qed.

Lemma enriched_skills_NoDup_or_plain inp role_key level l :
  snd (enriched (with_skills inp l) role_key level)
  = match described (job_description inp) with
    | Some text =>
        PyStr.sorted (PyStr.set (l ++ ext_skills (extract_from_text text)))
    | None => l
    end.
Proof.
  unfold enriched, with_skills. cbn [job_description skills].
  now destruct (described (job_description inp)).
Qed.

(** X22.  With a non-empty job description the caller's skills count as
    a set: two skills lists with the same members, in any order and
    with any repetitions, give the same skills multiplier and the same
    final figures. *)
Theorem described_skills_are_a_set
    (inp : PredictionInput) (l l' : list string)
    (weights : option (dict Q)) (w_sk w_geo w_reg : Q) :
  described (job_description inp) <> None ->
  (forall x, In x l <-> In x l') ->
  lookup (effective_weights weights) "skills" = Some w_sk ->
  lookup (effective_weights weights) "geo" = Some w_geo ->
  lookup (effective_weights weights) "regression" = Some w_reg ->
  exists b b',
    predict_2026 (with_skills inp l) weights = inr b
    /\ predict_2026 (with_skills inp l') weights = inr b'
    /\ skills_multiplier b == skills_multiplier b'
    /\ same_finals b b'.
Proof.
  intros Hd Hsame Hs Hg Hr.
  destruct (predict_2026_pair (with_skills inp l) (with_skills inp l')
              weights _ _ _ eq_refl eq_refl eq_refl eq_refl Hs Hg Hr)
    as (crk & clv & rk & lv & by_level & base & b & b' & Hb & Hb' & _ & _
        & F & F').
  exists b, b'. split; [exact Hb|]. split; [exact Hb'|].
  rewrite !enriched_skills_NoDup_or_plain in F, F'.
  destruct (described (job_description inp)) as [text|]; [|congruence].
  destruct (shared_figures _ _ _ _ _ _ _ _ _ _ _ _ _ F F') as (Il & Ih & Ig).
  assert (Es : skills_multiplier b == skills_multiplier b').
  { rewrite (bf_skills _ _ _ _ _ _ _ _ _ _ F).
    rewrite (bf_skills _ _ _ _ _ _ _ _ _ _ F').
    rewrite !compute_skills_multiplier_formula.
    apply skills_formula_compat, premium_sum_perm.
    apply NoDup_Permutation; try apply sorted_set_NoDup.
    intros x. rewrite !sorted_set_In, !in_app_iff, (Hsame x). tauto. }
  split; [exact Es|].
  assert (El : final_low b == final_low b').
  { rewrite (bf_low _ _ _ _ _ _ _ _ _ _ F), (bf_low _ _ _ _ _ _ _ _ _ _ F').
    rewrite Il, Ig. apply blended_compat; [exact Es|].
    rewrite (bf_reg _ _ _ _ _ _ _ _ _ _ F), (bf_reg _ _ _ _ _ _ _ _ _ _ F').
    reflexivity. }
  assert (Eh : final_high b == final_high b').
  { rewrite (bf_high _ _ _ _ _ _ _ _ _ _ F), (bf_high _ _ _ _ _ _ _ _ _ _ F').
    rewrite Ih, Ig. apply blended_compat; [exact Es|].
    rewrite (bf_reg _ _ _ _ _ _ _ _ _ _ F), (bf_reg _ _ _ _ _ _ _ _ _ _ F').
    reflexivity. }
  split; [exact El|]. split; [|exact Eh].
  rewrite (bf_mid _ _ _ _ _ _ _ _ _ _ F), (bf_mid _ _ _ _ _ _ _ _ _ _ F').
  now apply mid_compat.
Qed.

Lemma described_skills_are_a_set_witness :
  exists b b',
    predict_2026 (with_skills soc_input ["edr"; "siem"; "edr"]) None = inr b
    /\ predict_2026 (with_skills soc_input ["siem"; "edr"]) None = inr b'
    /\ skills_multiplier b == skills_multiplier b'
    /\ same_finals b b'.
Proof.
  apply (described_skills_are_a_set soc_input ["edr"; "siem"; "edr"]
           ["siem"; "edr"] None 0.20 0.20 0.20);
    try reflexivity; [discriminate|].
  intros x. simpl. tauto.
Defined.

Lemma enriched_with_years inp years role_key level :
  enriched (with_years inp years) role_key level = enriched inp role_key level.
Proof. reflexivity. Qed.

(** X23.  Adding a skill to the caller's list, with or without a job
    description, never lowers the skills multiplier nor any of the
    three final figures, for weights in [0, 1]. *)
Theorem more_skills_never_lower
    (inp : PredictionInput) (before after : list string) (x : string)
    (weights : option (dict Q)) (w_sk w_geo w_reg : Q) :
  lookup (effective_weights weights) "skills" = Some w_sk ->
  lookup (effective_weights weights) "geo" = Some w_geo ->
  lookup (effective_weights weights) "regression" = Some w_reg ->
  0 <= w_sk <= 1 -> 0 <= w_geo <= 1 -> 0 <= w_reg <= 1 ->
  exists b b',
    predict_2026 (with_skills inp (before ++ after)) weights = inr b
    /\ predict_2026 (with_skills inp (before ++ x :: after)) weights = inr b'
    /\ skills_multiplier b <= skills_multiplier b'
    /\ finals_le b b'.
Proof.
  intros Hs Hg Hr Hws Hwg Hwr.
  destruct (predict_2026_pair (with_skills inp (before ++ after))
              (with_skills inp (before ++ x :: after))
              weights _ _ _ eq_refl eq_refl eq_refl eq_refl Hs Hg Hr)
    as (crk & clv & rk & lv & by_level & base & b & b' & Hb & Hb' & Hrow
        & Hbase & F & F').
  exists b, b'. split; [exact Hb|]. split; [exact Hb'|].
  rewrite !enriched_skills_NoDup_or_plain in F, F'.
  destruct (shared_figures _ _ _ _ _ _ _ _ _ _ _ _ _ F F') as (Il & Ih & Ig).
  destruct (blend_facts_positive _ _ _ _ _ _ _ _ _ _ _ F Hrow Hbase)
    as (_ & _ & Hil & Hih & _).
  pose proof (multipliers_bounds _ _ _ _ _ _ _ _ _ _ F) as (_ & Bg & Br).
  assert (Es : skills_multiplier b <= skills_multiplier b').
  { rewrite (bf_skills _ _ _ _ _ _ _ _ _ _ F).
    rewrite (bf_skills _ _ _ _ _ _ _ _ _ _ F').
    rewrite !compute_skills_multiplier_formula.
    destruct (described (job_description inp)) as [text|].
    - unfold skills_formula.
      assert (H : premium_sum
                    (PyStr.sorted
                       (PyStr.set ((before ++ after)
                                   ++ ext_skills (extract_from_text text))))
                  <= premium_sum
                       (PyStr.sorted
                          (PyStr.set ((before ++ x :: after)
                                      ++ ext_skills (extract_from_text text))))).
      { apply premium_sum_incl; [apply sorted_set_NoDup|].
        intros y. rewrite !sorted_set_In, !in_app_iff.
        pose proof (in_cons x y after). tauto. }
      apply (Q.min_le_compat_r _ _ 0.25) in H. lra.
    - apply skills_formula_insert. }
  split; [exact Es|].
  assert (Ereg : regression_adjustment_factor b'
                 = regression_adjustment_factor b).
  { now rewrite (bf_reg _ _ _ _ _ _ _ _ _ _ F),
      (bf_reg _ _ _ _ _ _ _ _ _ _ F'). }
  assert (El : final_low b <= final_low b').
  { rewrite (bf_low _ _ _ _ _ _ _ _ _ _ F), (bf_low _ _ _ _ _ _ _ _ _ _ F').
    rewrite Il, Ig, Ereg.
    apply blended_skills_le; trivial; lra. }
  assert (Eh : final_high b <= final_high b').
  { rewrite (bf_high _ _ _ _ _ _ _ _ _ _ F), (bf_high _ _ _ _ _ _ _ _ _ _ F').
    rewrite Ih, Ig, Ereg.
    apply blended_skills_le; trivial; lra. }
  split; [exact El|]. split; [|exact Eh].
  rewrite (bf_mid _ _ _ _ _ _ _ _ _ _ F), (bf_mid _ _ _ _ _ _ _ _ _ _ F').
  now apply mid_le.
Qed.

Lemma more_skills_never_lower_witness :
  exists b b',
    predict_2026 (with_skills soc_input (["siem"] ++ ["edr"])) None = inr b
    /\ predict_2026 (with_skills soc_input (["siem"] ++ "oscp" :: ["edr"]))
         None = inr b'
    /\ skills_multiplier b <= skills_multiplier b'
    /\ finals_le b b'.
Proof.
  apply (more_skills_never_lower soc_input ["siem"] ["edr"] "oscp" None
           0.20 0.20 0.20);
    try reflexivity; split; discriminate.
Defined.

(** X24.  More years of experience never lower any of the three final
    figures, as long as the regression weight is not negative. *)
Theorem more_experience_never_lowers
    (inp : PredictionInput) (y1 y2 : Q)
    (weights : option (dict Q)) (w_sk w_geo w_reg : Q) :
  lookup (effective_weights weights) "skills" = Some w_sk ->
  lookup (effective_weights weights) "geo" = Some w_geo ->
  lookup (effective_weights weights) "regression" = Some w_reg ->
  0 <= w_reg -> y1 <= y2 ->
  exists b b',
    predict_2026 (with_years inp y1) weights = inr b
    /\ predict_2026 (with_years inp y2) weights = inr b'
    /\ finals_le b b'.
Proof.
  intros Hs Hg Hr Hwr Hy.
  destruct (predict_2026_pair (with_years inp y1) (with_years inp y2)
              weights _ _ _ eq_refl eq_refl eq_refl eq_refl Hs Hg Hr)
    as (crk & clv & rk & lv & by_level & base & b & b' & Hb & Hb' & Hrow
        & Hbase & F & F').
  exists b, b'. split; [exact Hb|]. split; [exact Hb'|].
  rewrite !enriched_with_years in F, F'.
  destruct (shared_figures _ _ _ _ _ _ _ _ _ _ _ _ _ F F') as (Il & Ih & Ig).
  destruct (blend_facts_positive _ _ _ _ _ _ _ _ _ _ _ F Hrow Hbase)
    as (_ & _ & Hil & Hih & _).
  pose proof (multipliers_bounds _ _ _ _ _ _ _ _ _ _ F) as (Bs & Bg & _).
  assert (Hreg : regression_adjustment_factor b
                 <= regression_adjustment_factor b').
  { rewrite (bf_reg _ _ _ _ _ _ _ _ _ _ F), (bf_reg _ _ _ _ _ _ _ _ _ _ F').
    now apply regression_adjustment_le. }
  assert (Esk : skills_multiplier b' = skills_multiplier b).
  { now rewrite (bf_skills _ _ _ _ _ _ _ _ _ _ F),
      (bf_skills _ _ _ _ _ _ _ _ _ _ F'). }
  assert (El : final_low b <= final_low b').
  { rewrite (bf_low _ _ _ _ _ _ _ _ _ _ F), (bf_low _ _ _ _ _ _ _ _ _ _ F').
    rewrite Il, Ig, Esk. apply blended_regression_le; trivial; lra. }
  assert (Eh : final_high b <= final_high b').
  { rewrite (bf_high _ _ _ _ _ _ _ _ _ _ F), (bf_high _ _ _ _ _ _ _ _ _ _ F').
    rewrite Ih, Ig, Esk. apply blended_regression_le; trivial; lra. }
  split; [exact El|]. split; [|exact Eh].
  rewrite (bf_mid _ _ _ _ _ _ _ _ _ _ F), (bf_mid _ _ _ _ _ _ _ _ _ _ F').
  now apply mid_le.
Qed.

Lemma more_experience_never_lowers_witness :
  exists b b',
    predict_2026 (with_years soc_input 1) None = inr b
    /\ predict_2026 (with_years soc_input 6) None = inr b'
    /\ finals_le b b'.
Proof.
  apply (more_experience_never_lowers soc_input 1 6 None 0.20 0.20 0.20);
    try reflexivity; discriminate.
Defined.

(** ** The chart data *)

Lemma predict_2026_default_bars inp :
  exists b,
    predict_2026 inp None = inr b
    /\ 0 <= final_mid b - final_low b
    /\ 0 <= final_high b - final_mid b.
Proof.
  destruct (predict_2026_ok inp None 0.20 0.20 0.20 eq_refl eq_refl eq_refl)
    as (rk & lv & by_level & base & b & _ & _ & H).
  destruct (enriched inp rk lv) as [[role_key level] skills].
  destruct H as (_ & _ & Hord & Hb & F).
  destruct (inflation_ordered _ _ _ _ _ _ _ _ _ _ F Hord) as [_ Hinfl].
  assert (O : final_low b <= final_mid b <= final_high b).
  { apply (blend_facts_ordered _ _ _ _ _ _ _ _ _ _ F Hinfl);
      split; discriminate. }
  exists b. split; [exact Hb|]. split; lra.
Qed.

Lemma map_result_default examples :
  exists results,
    map_result (fun ex => predict_2026 ex None) examples = inr results
    /\ length results = length examples
    /\ Forall (fun b => 0 <= final_mid b - final_low b
                        /\ 0 <= final_high b - final_mid b) results.
Proof.
  induction examples as [|ex rest (results & Hres & Hlen & Hall)].
  - exists []. now repeat split.
  - destruct (predict_2026_default_bars ex) as (b & Hb & Hbars).
    exists (b :: results). cbn [map_result].
    rewrite Hb, bind_inr, Hres, bind_inr.
    split; [reflexivity|]. split; [simpl; now rewrite Hlen|].
    now constructor.
Qed.

Lemma array_sub_map {A} (f g : A -> Q) l :
  array_sub (map f l) (map g l) = map (fun x => f x - g x) l.
Proof.
  unfold array_sub. induction l as [|x l IH]; simpl; [reflexivity|].
  now rewrite IH.
Qed.

(** X25.  [plot_salary_bars_2026] prepares its chart for every list of
    examples without raising: one bar, one label and one pair of error
    bars per example, and no error bar negative. *)
Theorem plot_salary_bars_2026_error_bars (examples : list PredictionInput) :
  exists chart,
    plot_salary_bars_2026 examples = inr chart
    /\ chart_x chart = seq 0 (length examples)
    /\ length (chart_labels chart) = length examples
    /\ length (chart_heights chart) = length examples
    /\ length (fst (chart_yerr chart)) = length examples
    /\ length (snd (chart_yerr chart)) = length examples
    /\ Forall (fun e => 0 <= e) (fst (chart_yerr chart))
    /\ Forall (fun e => 0 <= e) (snd (chart_yerr chart)).
Proof.
  destruct (map_result_default examples) as (results & Hres & Hlen & Hall).
  unfold plot_salary_bars_2026. rewrite Hres, bind_inr.
  eexists. split; [reflexivity|]. cbn [chart_x chart_labels chart_heights
                                         chart_yerr fst snd].
  rewrite !array_sub_map, !length_map, Hlen.
  repeat split; trivial.
  - apply Forall_map. eapply Forall_impl; [|exact Hall]. now intros b (H & _).
  - apply Forall_map. eapply Forall_impl; [|exact Hall]. now intros b (_ & H).
Qed.

(** ** Formatting amounts *)












(** *** The thousands separators *)











(** The figures the demo prints for its first example. *)
Example money_demo :
  match predict_2026 (hd soc_input demo_inputs) None with
  | inr b => (money (final_low b), money (final_high b), money (final_mid b))
  | inl _ => ("", "", "")
  end = ("$152,093", "$202,790", "$177,441").
Proof. vm_compute. reflexivity. Qed.
